(** * AI Guild project tracker: the registry, its spreadsheet mirror,
      the contact validator and the access gate of [app.py].

    The Python module is embedded function by function.  A Python [str] is
    a [string] with one [ascii] per code point (code points below 256); the
    [projects] table is the list of its rows in rowid order; the mirrored
    sheet is the list of rows that [values().get] returns for
    [Projects!A2:I]; what can fail outside the program (building the
    Sheets service, each Sheets call) is read from an environment record,
    and Python exceptions are an explicit result constructor. *)

From Stdlib Require Import List String Ascii Bool Arith NArith ZArith Lia.
From Stdlib Require Import Permutation Sorted.
Import ListNotations.

Local Open Scope string_scope.
Local Open Scope Z_scope.

(** ** Characters and strings *)

Definition code (c : ascii) : N := N_of_ascii c.

(** [\d] on a [str] pattern is [Py_UNICODE_ISDECIMAL]; below code point 256
    the decimal digits are exactly ['0'..'9']. *)
Definition is_decimal (c : ascii) : bool :=
  ((48 <=? code c) && (code c <=? 57))%N.

Definition newline : ascii := ascii_of_N 10.

Fixpoint all_chars (f : ascii -> bool) (s : string) : bool :=
  match s with
  | EmptyString => true
  | String c s' => f c && all_chars f s'
  end.

(** ** The fragment of [re] that [validate_whatsapp] uses *)

Module Re.

Inductive atom : Type :=
| Lit (c : ascii)        (* an escaped literal such as [\+] *)
| Digit.                 (* [\d] *)

Inductive item : Type :=
| Bol                              (* [^] *)
| Eol                              (* [$] *)
| Rep (a : atom) (lo hi : nat).    (* [a{lo,hi}]; a bare atom is [a{1,1}] *)

Definition pattern : Type := list item.

Definition atom_matches (a : atom) (c : ascii) : bool :=
  match a with
  | Lit d => Ascii.eqb c d
  | Digit => is_decimal c
  end.

(** Without [re.MULTILINE], [$] matches at the end of the string and just
    before a newline that is the last character. *)
Definition at_end (s : string) : bool :=
  match s with
  | EmptyString => true
  | String c EmptyString => Ascii.eqb c newline
  | String _ (String _ _) => false
  end.

(** The [lo] compulsory repetitions of [a{lo,hi}]. *)
Fixpoint rep_req (a : atom) (lo : nat) (k : nat -> string -> bool)
         (pos : nat) (s : string) : bool :=
  match lo with
  | O => k pos s
  | S lo' =>
      match s with
      | EmptyString => false
      | String c s' => atom_matches a c && rep_req a lo' k (S pos) s'
      end
  end.

(** The [hi - lo] optional repetitions: greedy, backtracking to fewer
    repetitions when the rest of the pattern fails. *)
Fixpoint rep_opt (a : atom) (extra : nat) (k : nat -> string -> bool)
         (pos : nat) (s : string) : bool :=
  match extra with
  | O => k pos s
  | S extra' =>
      match s with
      | EmptyString => k pos s
      | String c s' =>
          (atom_matches a c && rep_opt a extra' k (S pos) s') || k pos s
      end
  end.

(** [run p pos s]: does [p] match a prefix of [s], the text that starts
    at index [pos] of the subject? *)
Fixpoint run (p : pattern) : nat -> string -> bool :=
  match p with
  | [] => fun _ _ => true
  | Bol :: p' => fun pos s => Nat.eqb pos 0 && run p' pos s
  | Eol :: p' => fun pos s => at_end s && run p' pos s
  | Rep a lo hi :: p' =>
      fun pos s => rep_req a lo (rep_opt a (hi - lo) (run p')) pos s
  end.

(** [bool(re.match(p, s))]: the match is tried at index 0 only. *)
Definition match_ (p : pattern) (s : string) : bool := run p 0%nat s.

End Re.

(** ** Validation *)

(** [r'^\+\d{1,3}\d{10}$'] *)
Definition whatsapp_pattern : Re.pattern :=
  [Re.Bol; Re.Rep (Re.Lit "+") 1 1; Re.Rep Re.Digit 1 3;
   Re.Rep Re.Digit 10 10; Re.Eol].

Definition validate_whatsapp (number : string) : bool :=
  Re.match_ whatsapp_pattern number.

Definition validate_one_liner (text : string) : bool :=
  (String.length text <=? 250)%nat.

(** ** SHA-256 ([hashlib.sha256]), on bytes and 32-bit words as [N] *)

Module Sha256.
Local Open Scope N_scope.

Definition w32 (x : N) : N := x mod 2 ^ 32.
Definition add32 (x y : N) : N := w32 (x + y).
Definition rotr (n x : N) : N :=
  N.lor (N.shiftr x n) (w32 (N.shiftl x (32 - n))).
Definition shr (n x : N) : N := N.shiftr x n.
Definition not32 (x : N) : N := N.lxor x 0xffffffff.

Definition Ch (x y z : N) : N := N.lxor (N.land x y) (N.land (not32 x) z).
Definition Maj (x y z : N) : N :=
  N.lxor (N.lxor (N.land x y) (N.land x z)) (N.land y z).
Definition bsig0 (x : N) : N :=
  N.lxor (N.lxor (rotr 2 x) (rotr 13 x)) (rotr 22 x).
Definition bsig1 (x : N) : N :=
  N.lxor (N.lxor (rotr 6 x) (rotr 11 x)) (rotr 25 x).
Definition ssig0 (x : N) : N :=
  N.lxor (N.lxor (rotr 7 x) (rotr 18 x)) (shr 3 x).
Definition ssig1 (x : N) : N :=
  N.lxor (N.lxor (rotr 17 x) (rotr 19 x)) (shr 10 x).

(** FIPS 180-4 defines the constants by arithmetic: the round constants
    are the first 32 bits of the fractional parts of the cube roots of the
    first 64 primes, the initial hash value those of the square roots of
    the first 8 primes. *)
Definition is_prime (n : nat) : bool :=
  forallb (fun d => negb (n mod d =? 0)%nat) (seq 2 (n - 2)).

Definition primes : list N :=
  map N.of_nat (filter is_prime (seq 2 310)).

(** The integer cube root, one bit at a time from bit [bits - 1] down. *)
Fixpoint root3 (bits : nat) (n r : N) : N :=
  match bits with
  | O => r
  | S b =>
      let c := r + 2 ^ N.of_nat b in
      root3 b n (if c * c * c <=? n then c else r)
  end.

Definition K : list N :=
  map (fun p => w32 (root3 36 (p * 2 ^ 96) 0)) (firstn 64 primes).

Definition H0 : list N :=
  map (fun p => w32 (N.sqrt (p * 2 ^ 64))) (firstn 8 primes).

(** The message, a [0x80] byte, zero bytes up to 56 modulo 64, and the
    bit length on eight bytes, most significant first. *)
Definition be_bytes (n : nat) (x : N) : list N :=
  map (fun i => (x / 2 ^ (8 * N.of_nat i)) mod 256) (rev (seq 0 n)).

Definition pad (msg : list N) : list N :=
  let len := N.of_nat (List.length msg) in
  let zeros := N.to_nat ((119 - len mod 64) mod 64) in
  (msg ++ [0x80] ++ repeat 0 zeros ++ be_bytes 8 (8 * len))%list.

Fixpoint words (bs : list N) : list N :=
  match bs with
  | a :: b :: c :: d :: rest =>
      (a * 2 ^ 24 + b * 2 ^ 16 + c * 2 ^ 8 + d) :: words rest
  | _ => []
  end.

Fixpoint blocks (n : nat) (ws : list N) : list (list N) :=
  match n with
  | O => []
  | S n' => firstn 16 ws :: blocks n' (skipn 16 ws)
  end.

(** The message schedule: [win] holds [W[t-16] .. W[t-1]]. *)
Fixpoint schedule (n : nat) (win : list N) : list N :=
  match n with
  | O => []
  | S n' =>
      let w16 := nth 0 win 0 in
      let w15 := nth 1 win 0 in
      let w7 := nth 9 win 0 in
      let w2 := nth 14 win 0 in
      let next := add32 (add32 (ssig1 w2) w7) (add32 (ssig0 w15) w16) in
      w16 :: schedule n' (tl win ++ [next])%list
  end.

Record regs : Type :=
  Regs { ra : N; rb : N; rc : N; rd : N; re : N; rf : N; rg : N; rh : N }.

Definition round (r : regs) (kw : N * N) : regs :=
  let (k, w) := kw in
  let t1 :=
    add32 (add32 (add32 (rh r) (bsig1 (re r))) (Ch (re r) (rf r) (rg r)))
          (add32 k w) in
  let t2 := add32 (bsig0 (ra r)) (Maj (ra r) (rb r) (rc r)) in
  Regs (add32 t1 t2) (ra r) (rb r) (rc r) (add32 (rd r) t1)
       (re r) (rf r) (rg r).

Definition of_list (h : list N) : regs :=
  Regs (nth 0 h 0) (nth 1 h 0) (nth 2 h 0) (nth 3 h 0)
       (nth 4 h 0) (nth 5 h 0) (nth 6 h 0) (nth 7 h 0).

Definition to_list (r : regs) : list N :=
  [ra r; rb r; rc r; rd r; re r; rf r; rg r; rh r].

Definition compress (h : list N) (block : list N) : list N :=
  let r := fold_left round (combine K (schedule 64 block)) (of_list h) in
  map (fun p => add32 (fst p) (snd p)) (combine h (to_list r)).

Definition digest (msg : list N) : list N :=
  let ws := words (pad msg) in
  fold_left compress (blocks (List.length ws / 16) ws) H0.

Definition hex_digit (n : N) : ascii :=
  ascii_of_N (if n <? 10 then 48 + n else 87 + n).

Definition hex_word (w : N) : string :=
  fold_right
    (fun i s => String (hex_digit ((w / 16 ^ N.of_nat i) mod 16)) s)
    EmptyString (rev (seq 0 8)).

(** [hashlib.sha256(data).hexdigest()] *)
Definition hexdigest (msg : list N) : string :=
  fold_right (fun w s => hex_word w ++ s)%string EmptyString (digest msg).

End Sha256.

(** ** The access gate *)

(** [str.lower()]: below code point 256 the cased letters are [A-Z] and
    [U+00C0..U+00DE] without the multiplication sign [U+00D7]; the lower
    case form is 32 code points further. *)
Definition is_upper (c : ascii) : bool :=
  (((65 <=? code c) && (code c <=? 90))
   || ((192 <=? code c) && (code c <=? 222) && negb (code c =? 215)))%N.

Definition lower_char (c : ascii) : ascii :=
  if is_upper c then ascii_of_N (code c + 32) else c.

Fixpoint lower (s : string) : string :=
  match s with
  | EmptyString => EmptyString
  | String c s' => String (lower_char c) (lower s')
  end.

(** [str.encode()]: UTF-8, one byte below 128 and two bytes from 128 to
    255. *)
Definition encode_char (c : ascii) : list N :=
  (if code c <? 128 then [code c]
   else [192 + code c / 64; 128 + code c mod 64])%N.

Fixpoint encode (s : string) : list N :=
  match s with
  | EmptyString => []
  | String c s' => (encode_char c ++ encode s')%list
  end.

(** [st.session_state]: the key [password_correct] may be absent. *)
Record session_state : Type :=
  { password_correct : option bool }.

Section Gate.

(** [st.secrets["admin_credentials"]]: the user name and the hex digest of
    the password. *)
Variables ADMIN_USERNAME ADMIN_PASSWORD : string.

Definition credentials_match (username password : string) : bool :=
  String.eqb (lower username) ADMIN_USERNAME
  && String.eqb (Sha256.hexdigest (encode password)) ADMIN_PASSWORD.

(** [check_password()]: the two text inputs and the state of the Login
    button are the widget values of this script run; the result is the
    returned flag, the session state afterwards and what [st.error]
    showed (without the emoji that starts the message). *)
Definition check_password (ss : session_state)
           (username password : string) (login : bool)
  : bool * session_state * list string :=
  let ss1 :=
    match password_correct ss with
    | None => {| password_correct := Some false |}
    | Some _ => ss
    end in
  match password_correct ss1 with
  | Some true => (true, ss1, [])
  | _ =>
      if login then
        if credentials_match username password
        then (true, {| password_correct := Some true |}, [])
        else (false, ss1, ["User not known or password incorrect"])
      else (false, ss1, [])
  end.

End Gate.

(** ** Data model *)

(** [PROJECT_STATUSES.keys()] *)
Definition PROJECT_STATUSES : list string := ["Idea"; "MVP"; "Launch"].

(** The dictionary that [add_project] and [update_project] receive. *)
Record project_data : Type :=
  { project_name : string;
    one_liner : string;
    description : string;
    ai_usage : string;
    lead_name : string;
    whatsapp_contact : string;
    status : string }.

(** A row of the [projects] table.  [CURRENT_TIMESTAMP] has a resolution
    of one second and its text form orders as time does, so a time stamp is
    a number of seconds. *)
Module ProjectRow.
Record t : Type :=
  mk { id : Z;
       project_name : string;
       one_liner : string;
       description : string;
       ai_usage : string;
       lead_name : string;
       whatsapp_contact : string;
       status : string;
       date_added : Z;
       last_updated : Z }.
End ProjectRow.

Definition sheet_row : Type := list string.

Record world : Type :=
  { db : list ProjectRow.t;            (* table [projects], in rowid order *)
    seq_id : Z;                 (* [sqlite_sequence] of AUTOINCREMENT *)
    sheet : list sheet_row;     (* [Projects!A2:I] as [values().get] reads it *)
    out : list string }.        (* what [st.error] and [print] wrote *)

Inductive exn : Type :=
| IntegrityError (msg : string)
| IndexError (msg : string)
| HttpError (msg : string)
| TransportError (msg : string).

(** [str(e)] *)
Definition str (e : exn) : string :=
  match e with
  | IntegrityError m | IndexError m | HttpError m | TransportError m => m
  end.

(** What the program reads from outside during one call: the two clocks,
    and whether building the Sheets service or one of its calls raises. *)
Record env : Type :=
  { CURRENT_TIMESTAMP : Z;
    now_strftime : string;
    service_error : option exn;
    get_error : option exn;
    append_error : option exn;
    update_error : option exn;
    clear_error : option exn }.

(** ** Computations that return or raise *)

Inductive result (A : Type) : Type :=
| Returns (a : A)
| Raises (e : exn).
Arguments Returns {A} a.
Arguments Raises {A} e.

Definition M (A : Type) : Type := world -> result A * world.

Definition ret {A} (a : A) : M A := fun w => (Returns a, w).
Definition raise {A} (e : exn) : M A := fun w => (Raises e, w).
Definition bind {A B} (m : M A) (f : A -> M B) : M B :=
  fun w =>
    match m w with
    | (Returns a, w') => f a w'
    | (Raises e, w') => (Raises e, w')
    end.
Definition try_except {A} (m : M A) (handler : exn -> M A) : M A :=
  fun w =>
    match m w with
    | (Returns a, w') => (Returns a, w')
    | (Raises e, w') => handler e w'
    end.
Definition lift {A} (r : result A) : M A := fun w => (r, w).
Definition fail_if (err : option exn) : M unit :=
  match err with
  | Some e => raise e
  | None => ret tt
  end.

Notation "x <- m ;; k" := (bind m (fun x => k))
  (at level 61, m at next level, right associativity).
Notation "m ;;; k" := (bind m (fun _ => k))
  (at level 61, right associativity).

Definition set_db (rows : list ProjectRow.t) (w : world) : world :=
  {| db := rows; seq_id := seq_id w; sheet := sheet w; out := out w |}.
Definition set_sheet (rows : list sheet_row) (w : world) : world :=
  {| db := db w; seq_id := seq_id w; sheet := rows; out := out w |}.
Definition emit (line : string) : M unit :=
  fun w => (Returns tt,
            {| db := db w; seq_id := seq_id w; sheet := sheet w;
               out := (out w ++ [line])%list |}).

(** ** The local store (SQLite) *)

Definition has_name (name : string) (r : ProjectRow.t) : bool :=
  String.eqb (ProjectRow.project_name r) name.

Definition names (rows : list ProjectRow.t) : list string :=
  map ProjectRow.project_name rows.

(** [INSERT INTO projects (...) VALUES (?, ?, ?, ?, ?, ?, ?)] and the
    commit: the UNIQUE constraint on [project_name] rejects the statement,
    otherwise the row gets the next id and both time stamps default to
    [CURRENT_TIMESTAMP]. *)
Definition new_row (e : env) (i : Z) (p : project_data) : ProjectRow.t :=
  ProjectRow.mk i (project_name p) (one_liner p) (description p) (ai_usage p)
         (lead_name p) (whatsapp_contact p) (status p)
         (CURRENT_TIMESTAMP e) (CURRENT_TIMESTAMP e).

Definition sql_insert (e : env) (p : project_data) : M unit :=
  fun w =>
    if existsb (has_name (project_name p)) (db w)
    then (Raises
            (IntegrityError "UNIQUE constraint failed: projects.project_name"),
          w)
    else (Returns tt,
          {| db := (db w ++ [new_row e (seq_id w + 1) p])%list;
             seq_id := seq_id w + 1;
             sheet := sheet w;
             out := out w |}).

(** [UPDATE projects SET one_liner = ?, ..., last_updated =
    CURRENT_TIMESTAMP WHERE project_name = ?] *)
Definition updated_row (e : env) (p : project_data) (r : ProjectRow.t) : ProjectRow.t :=
  ProjectRow.mk (ProjectRow.id r) (ProjectRow.project_name r) (one_liner p) (description p)
         (ai_usage p) (lead_name p) (whatsapp_contact p) (status p)
         (ProjectRow.date_added r) (CURRENT_TIMESTAMP e).

Definition sql_update (e : env) (p : project_data) : M unit :=
  fun w =>
    (Returns tt,
     set_db (map (fun r => if has_name (project_name p) r
                           then updated_row e p r else r) (db w)) w).

(** [DELETE FROM projects WHERE project_name = ?] *)
Definition sql_delete (name : string) : M unit :=
  fun w =>
    (Returns tt, set_db (filter (fun r => negb (has_name name r)) (db w)) w).

(** [ORDER BY date_added DESC]: the rows sorted by decreasing
    [date_added]; SQL leaves the order of rows with equal keys open, here
    they stay in rowid order. *)
Fixpoint insert_desc (r : ProjectRow.t) (l : list ProjectRow.t) : list ProjectRow.t :=
  match l with
  | [] => [r]
  | h :: t =>
      if ProjectRow.date_added h <=? ProjectRow.date_added r
      then r :: l
      else h :: insert_desc r t
  end.

Definition order_by_date_added_desc (l : list ProjectRow.t) : list ProjectRow.t :=
  fold_right insert_desc [] l.

(** [get_all_projects()]: every column of every row, as a list of
    records. *)
Definition get_all_projects (w : world) : list ProjectRow.t :=
  order_by_date_added_desc (db w).



(** ** The spreadsheet mirror (Google Sheets) *)

(** [init_google_sheets()]: [true] stands for the service object, [false]
    for [None]. *)
Definition init_google_sheets (e : env) : M bool :=
  match service_error e with
  | Some x =>
      emit ("Error connecting to Google Sheets: " ++ str x) ;;; ret false
  | None => ret true
  end.

(** Writing row [i] of the range; rows between the data and [i] read as
    empty rows. *)
Fixpoint set_row (i : nat) (r : sheet_row) (rows : list sheet_row)
  : list sheet_row :=
  match i, rows with
  | O, [] => [r]
  | O, _ :: t => r :: t
  | S i', [] => [] :: set_row i' r []
  | S i', h :: t => h :: set_row i' r t
  end.

(** [values().get] leaves out the empty rows at the end of the range. *)
Definition trim_rows (rows : list sheet_row) : list sheet_row :=
  fold_right (fun r acc =>
                match r, acc with
                | [], [] => []
                | _, _ => r :: acc
                end) [] rows.

Definition values_get (e : env) : M (list sheet_row) :=
  fail_if (get_error e) ;;; fun w => (Returns (sheet w), w).

Definition values_append (e : env) (r : sheet_row) : M unit :=
  fail_if (append_error e) ;;;
  fun w => (Returns tt, set_sheet (sheet w ++ [r])%list w).

(** [row_number] is a sheet row: the range starts at row 2. *)
Definition values_update (e : env) (row_number : nat) (r : sheet_row)
  : M unit :=
  fail_if (update_error e) ;;;
  fun w => (Returns tt, set_sheet (set_row (row_number - 2) r (sheet w)) w).

Definition values_clear (e : env) (row_number : nat) : M unit :=
  fail_if (clear_error e) ;;;
  fun w =>
    (Returns tt,
     if (row_number - 2 <? List.length (sheet w))%nat
     then set_sheet (trim_rows (set_row (row_number - 2) [] (sheet w))) w
     else w).

(** The loop of [find_row_in_sheets]: [row[0]] raises [IndexError] on an
    empty row. *)
Fixpoint scan_rows (rows : list sheet_row) (idx : nat) (name : string)
  : result (option nat) :=
  match rows with
  | [] => Returns None
  | row :: rest =>
      match row with
      | [] => Raises (IndexError "list index out of range")
      | cell :: _ =>
          if String.eqb cell name
          then Returns (Some (idx + 2)%nat)
          else scan_rows rest (S idx) name
      end
  end.

Definition find_row_in_sheets (e : env) (name : string) : M (option nat) :=
  try_except
    (rows <- values_get e ;; lift (scan_rows rows 0 name))
    (fun x => emit ("Error finding row: " ++ str x) ;;; ret None).

(** [if row_number:] *)
Definition truthy (row_number : option nat) : bool :=
  match row_number with
  | Some n => negb (n =? 0)%nat
  | None => false
  end.

Definition sheet_values (e : env) (p : project_data) (is_update : bool)
  : sheet_row :=
  [project_name p; one_liner p; description p; ai_usage p; lead_name p;
   whatsapp_contact p; status p; now_strftime e;
   if is_update then "Updated" else "New Entry"].

Definition sync_to_sheets (e : env) (p : project_data) (is_update : bool)
  : M (bool * string) :=
  try_except
    (service <- init_google_sheets e ;;
     if negb service then ret (false, "Failed to connect to Google Sheets")
     else
       let values := sheet_values e p is_update in
       if is_update then
         row_number <- find_row_in_sheets e (project_name p) ;;
         if truthy row_number then
           values_update e (match row_number with Some n => n | None => O end)
                         values ;;;
           ret (true, "Successfully updated in Google Sheets")
         else ret (false, "Project not found in Google Sheets")
       else
         values_append e values ;;;
         ret (true, "Successfully added to Google Sheets"))
    (fun x => ret (false, "Error syncing to Google Sheets: " ++ str x)).

(** ** Register, edit, delete *)

Definition add_project (e : env) (p : project_data) : M (bool * string) :=
  try_except
    (sql_insert e p ;;;
     r <- sync_to_sheets e p false ;;
     let (sheets_success, sheets_message) := r in
     if negb sheets_success
     then ret (true, "Project registered in database, but " ++ sheets_message)
     else ret (true,
               "Project successfully registered and synced to Google Sheets!"))
    (fun x =>
       match x with
       | IntegrityError _ => ret (false, "Project name already exists!")
       | _ => ret (false, "Error: " ++ str x)
       end).

Definition update_project (e : env) (p : project_data) : M (bool * string) :=
  try_except
    (sql_update e p ;;;
     r <- sync_to_sheets e p true ;;
     let (sheets_success, sheets_message) := r in
     if negb sheets_success
     then ret (true, "Project updated in database, but " ++ sheets_message)
     else ret (true,
               "Project successfully updated and synced to Google Sheets!"))
    (fun x => ret (false, "Error: " ++ str x)).

Definition delete_project (e : env) (name : string) : M (bool * string) :=
  try_except
    (sql_delete name ;;;
     service <- init_google_sheets e ;;
     if negb service
     then ret (false,
               "Project deleted from database but failed to connect to Google Sheets")
     else
       row_number <- find_row_in_sheets e name ;;
       if truthy row_number then
         values_clear e (match row_number with Some n => n | None => O end) ;;;
         ret (true,
              "Project successfully deleted from database and Google Sheets")
       else ret (true, "Project deleted from database"))
    (fun x => ret (false, "Error deleting project: " ++ str x)).


(** ** The other validators, the search and the dashboard counts *)

(** [str.split()] without arguments cuts at runs of white space; below
    code point 256 the white space characters are these. *)
Definition is_space (c : ascii) : bool :=
  (((9 <=? code c) && (code c <=? 13))
   || ((28 <=? code c) && (code c <=? 32))
   || (code c =? 133) || (code c =? 160))%N.

(** The scan of [split]: [word] is the word being read, if any. *)
Fixpoint split_from (word : option string) (s : string) : list string :=
  match s with
  | EmptyString =>
      match word with
      | Some w => [w]
      | None => []
      end
  | String c s' =>
      if is_space c then
        match word with
        | Some w => w :: split_from None s'
        | None => split_from None s'
        end
      else
        split_from
          (Some (match word with
                 | Some w => w ++ String c ""
                 | None => String c ""
                 end)) s'
  end.

Definition split (text : string) : list string := split_from None text.

Definition validate_description (text : string) : bool :=
  (List.length (split text) <=? 100)%nat.

(** [q in s] on strings. *)
Fixpoint starts_with (q s : string) : bool :=
  match q, s with
  | EmptyString, _ => true
  | String a q', String b s' => Ascii.eqb a b && starts_with q' s'
  | String _ _, EmptyString => false
  end.

Fixpoint contains (q s : string) : bool :=
  starts_with q s
  || match s with
     | EmptyString => false
     | String _ s' => contains q s'
     end.

Definition search_hit (query : string) (project : ProjectRow.t) : bool :=
  contains query (lower (ProjectRow.project_name project))
  || contains query (lower (ProjectRow.one_liner project))
  || contains query (lower (ProjectRow.description project))
  || contains query (lower (ProjectRow.lead_name project)).

Definition search_projects (query : string) (projects : list ProjectRow.t)
  : list ProjectRow.t :=
  let query := lower query in
  filter (search_hit query) projects.

(** The four numbers of the dashboard in [main]. *)
Definition count_status (stage : string) (projects : list ProjectRow.t) : nat :=
  List.length (filter (fun p => String.eqb (ProjectRow.status p) stage) projects).

Definition metrics (projects : list ProjectRow.t) : nat * nat * nat * nat :=
  (List.length projects, count_status "Idea" projects,
   count_status "MVP" projects, count_status "Launch" projects).

(** ** Vocabulary of the properties *)

(** Two characters that are the same letter in either case. *)
Definition case_variants (a b : ascii) : bool :=
  Ascii.eqb a b
  || (is_upper a && Ascii.eqb b (lower_char a))
  || (is_upper b && Ascii.eqb a (lower_char b)).

Fixpoint differ_only_in_case (s t : string) : bool :=
  match s, t with
  | EmptyString, EmptyString => true
  | String a s', String b t' => case_variants a b && differ_only_in_case s' t'
  | _, _ => false
  end.

Definition mentions (needle s : string) : Prop :=
  exists before after, s = before ++ needle ++ after.

Definition valid_status (s : string) : Prop := In s PROJECT_STATUSES.

Definition valid_statusb (s : string) : bool :=
  existsb (String.eqb s) PROJECT_STATUSES.

Definition row_ok (r : ProjectRow.t) : Prop :=
  valid_status (ProjectRow.status r) /\ ProjectRow.date_added r <= ProjectRow.last_updated r.

(** The invariants of the data model: unique names, enumerated status,
    [last_updated] not before [date_added]. *)
Definition store_ok (w : world) : Prop :=
  NoDup (names (db w)) /\ Forall row_ok (db w).

(** What an update may never touch. *)
Definition identity (r : ProjectRow.t) : Z * string * Z :=
  (ProjectRow.id r, ProjectRow.project_name r, ProjectRow.date_added r).

Definition newer_first (a b : ProjectRow.t) : Prop :=
  ProjectRow.date_added b <= ProjectRow.date_added a.

Definition first_cell_is (name : string) (row : sheet_row) : bool :=
  match row with
  | cell :: _ => String.eqb cell name
  | [] => false
  end.

(** A healthy mirror at SQLite time [t]. *)
Definition calm (t : Z) : env :=
  {| CURRENT_TIMESTAMP := t;
     now_strftime := "2025-01-01 00:00:00";
     service_error := None;
     get_error := None;
     append_error := None;
     update_error := None;
     clear_error := None |}.

Definition empty_world : world :=
  {| db := []; seq_id := 0; sheet := []; out := [] |}.

Definition demo (name stage : string) : project_data :=
  {| project_name := name;
     one_liner := "Chat over guild documents";
     description := "Answers questions about the guild handbook";
     ai_usage := "Retrieval with a language model";
     lead_name := "Ada";
     whatsapp_contact := "+2347012345678";
     status := stage |}.

(** The store and the sheet after one registration at second 100. *)
Definition atlas_world : world :=
  snd (add_project (calm 100) (demo "Atlas" "Idea") empty_world).

(** The Sheets service cannot be built. *)
Definition mirror_down (t : Z) : env :=
  {| CURRENT_TIMESTAMP := t;
     now_strftime := "2025-01-01 00:00:00";
     service_error := Some (TransportError "connection refused");
     get_error := None;
     append_error := None;
     update_error := None;
     clear_error := None |}.

(** The service is there, and its [append] and [clear] calls raise. *)
Definition writes_raise (t : Z) : env :=
  {| CURRENT_TIMESTAMP := t;
     now_strftime := "2025-01-01 00:00:00";
     service_error := None;
     get_error := None;
     append_error := Some (HttpError "quota exceeded");
     update_error := None;
     clear_error := Some (HttpError "quota exceeded") |}.

(** The world after one more line was written out. *)
Definition logged (line : string) (w : world) : world :=
  {| db := db w; seq_id := seq_id w; sheet := sheet w;
     out := (out w ++ [line])%list |}.

(** The store and the sheet after two registrations and the deletion of
    the first project: its sheet row reads as an empty row. *)
Definition blanked_world : world :=
  snd (delete_project
         (calm 300) "Atlas"
         (snd (add_project (calm 200) (demo "Borealis" "MVP") atlas_world))).
(** ** The forms of [main]

    A script run is a function of the widget values.  Of what a run
    displays, [out] keeps the [st.error] texts; the other displays
    ([st.success], [st.warning], [st.info]) leave no trace in the world. *)

(** The options of the status select box, [list(PROJECT_STATUSES.keys())]. *)
Inductive stage : Type := Idea | MVP | Launch.

Definition stage_name (s : stage) : string :=
  match s with
  | Idea => "Idea"
  | MVP => "MVP"
  | Launch => "Launch"
  end.

(** Truth value of a [str]. *)
Definition filled (s : string) : bool := negb (String.eqb s "").

Record registration : Type :=
  { reg_project_name : string;
    reg_one_liner : string;
    reg_description : string;
    reg_ai_usage : string;
    reg_lead_name : string;
    reg_whatsapp_contact : string;
    reg_status : stage;
    reg_submitted : bool }.

Definition registration_data (f : registration) : project_data :=
  {| project_name := reg_project_name f;
     one_liner := reg_one_liner f;
     description := reg_description f;
     ai_usage := reg_ai_usage f;
     lead_name := reg_lead_name f;
     whatsapp_contact := reg_whatsapp_contact f;
     status := stage_name (reg_status f) |}.

(** The body of the registration form: the result is what [add_project]
    returned when the form got that far. *)
Definition register_form (e : env) (f : registration)
  : M (option (bool * string)) :=
  if negb (reg_submitted f) then ret None
  else if negb (forallb filled
                        [reg_project_name f; reg_one_liner f;
                         reg_description f; reg_ai_usage f;
                         reg_lead_name f; reg_whatsapp_contact f])
  then emit "Please fill all required fields!" ;;; ret None
  else if negb (validate_one_liner (reg_one_liner f))
  then emit "One-liner exceeds 250 characters!" ;;; ret None
  else if negb (validate_description (reg_description f))
  then emit "Description exceeds 100 words!" ;;; ret None
  else if negb (validate_whatsapp (reg_whatsapp_contact f))
  then emit
         "Invalid WhatsApp number format! Use format: +[country code][number]"
       ;;; ret None
  else
    r <- add_project e (registration_data f) ;;
    let (success, message) := r in
    (if success then ret tt else emit message) ;;;
    ret (Some r).

Record edit_widgets : Type :=
  { username_input : string;
    password_input : string;
    login_button : bool;
    project_to_edit : option string;   (* the select box starts at [None] *)
    delete_button : bool;
    confirm_delete : bool;
    cancel_delete : bool;
    edit_one_liner : string;
    edit_description : string;
    edit_ai_usage : string;
    edit_lead_name : string;
    edit_whatsapp_contact : string;
    edit_status : stage;
    edit_submitted : bool }.

Definition edit_data (name : string) (wd : edit_widgets) : project_data :=
  {| project_name := name;
     one_liner := edit_one_liner wd;
     description := edit_description wd;
     ai_usage := edit_ai_usage wd;
     lead_name := edit_lead_name wd;
     whatsapp_contact := edit_whatsapp_contact wd;
     status := stage_name (edit_status wd) |}.

(** How the run of the tab ends: at its end or at a [return], at
    [st.rerun()], or with an exception that nothing catches. *)
Inductive run_end : Type :=
| Completed
| Rerun
| Crashed (error : string).

Fixpoint emit_all (lines : list string) : M unit :=
  match lines with
  | [] => ret tt
  | line :: rest => emit line ;;; emit_all rest
  end.

(** The Delete button with its confirmation: [true] when the run ends at
    [st.rerun()]. *)
Definition delete_dialog (e : env) (name : string) (wd : edit_widgets)
  : M bool :=
  if delete_button wd then
    stop <-
      (if confirm_delete wd then
         r <- delete_project e name ;;
         let (success, message) := r in
         if success then ret true else emit message ;;; ret false
       else ret false) ;;
    if stop then ret true else ret (cancel_delete wd)
  else ret false.

(** The edit form under the selected project. *)
Definition edit_form (e : env) (name : string) (wd : edit_widgets)
  : M unit :=
  if negb (edit_submitted wd) then ret tt
  else if negb (forallb filled
                        [edit_one_liner wd; edit_description wd;
                         edit_ai_usage wd; edit_lead_name wd;
                         edit_whatsapp_contact wd])
  then emit "Please fill all required fields!"
  else if negb (validate_whatsapp (edit_whatsapp_contact wd))
  then emit
         "Invalid WhatsApp number format! Use format: +[country code][number]"
  else
    r <- update_project e (edit_data name wd) ;;
    let (success, message) := r in
    if success then ret tt else emit message.

Section EditTab.

Variables ADMIN_USERNAME ADMIN_PASSWORD : string.

(** The third tab of [main], from [check_password()] to the end of the
    edit form. *)
Definition edit_tab (e : env) (ss : session_state) (wd : edit_widgets)
  : M (run_end * session_state) :=
  let '(ok, ss', shown) :=
    check_password ADMIN_USERNAME ADMIN_PASSWORD ss
                   (username_input wd) (password_input wd)
                   (login_button wd) in
  emit_all shown ;;;
  if negb ok then ret (Completed, ss')
  else
    fun w =>
      let all_projects := get_all_projects w in
      match all_projects, project_to_edit wd with
      | [], _ => (Returns (Completed, ss'), w)
      | _ :: _, None => (Returns (Completed, ss'), w)
      | _ :: _, Some name =>
          if negb (filled name) then (Returns (Completed, ss'), w)
          else
            (rerun <- delete_dialog e name wd ;;
             if rerun then ret (Rerun, ss')
             else
               match find (has_name name) all_projects with
               | None => ret (Crashed "StopIteration", ss')
               | Some current_project =>
                   if negb (valid_statusb (ProjectRow.status current_project))
                   then ret (Crashed "ValueError", ss')
                   else edit_form e name wd ;;; ret (Completed, ss')
               end) w
      end.

End EditTab.

(** ** More vocabulary *)

(** A sheet row of another project: not empty, first cell not [name]. *)
Definition other_project (name : string) (row : sheet_row) : bool :=
  match row with
  | [] => false
  | cell :: _ => negb (String.eqb cell name)
  end.

(** Nothing around the mirror fails. *)
Definition healthy (e : env) : Prop :=
  service_error e = None /\ get_error e = None /\ append_error e = None
  /\ update_error e = None /\ clear_error e = None.

Definition first_cell (row : sheet_row) : option string :=
  match row with
  | [] => None
  | cell :: _ => Some cell
  end.

(** The sheet has one row per table row, in the same order, under the
    same name. *)
Definition mirrored (w : world) : Prop :=
  map first_cell (sheet w) = map Some (names (db w)).


Definition is_hex (c : ascii) : bool :=
  (((48 <=? code c) && (code c <=? 57))
   || ((97 <=? code c) && (code c <=? 102)))%N.

(** A word: not empty, no white space in it. *)
Definition is_word (w : string) : bool :=
  filled w && all_chars (fun c => negb (is_space c)) w.

Definition blank (s : string) : bool := all_chars is_space s.

Definition has_upper (s : string) : bool :=
  negb (all_chars (fun c => negb (is_upper c)) s).

(** Every check of the registration form passes. *)
Definition registration_valid (f : registration) : bool :=
  forallb filled
          [reg_project_name f; reg_one_liner f; reg_description f;
           reg_ai_usage f; reg_lead_name f; reg_whatsapp_contact f]
  && validate_one_liner (reg_one_liner f)
  && validate_description (reg_description f)
  && validate_whatsapp (reg_whatsapp_contact f).

(** The checks of the edit form. *)
Definition edit_valid (wd : edit_widgets) : bool :=
  forallb filled
          [edit_one_liner wd; edit_description wd; edit_ai_usage wd;
           edit_lead_name wd; edit_whatsapp_contact wd]
  && validate_whatsapp (edit_whatsapp_contact wd).

(** The table without the rows of a name, and with the rows of a name
    rewritten. *)
Definition deleted (name : string) (rows : list ProjectRow.t) : list ProjectRow.t :=
  filter (fun r => negb (has_name name r)) rows.

Definition edited (e : env) (p : project_data) (rows : list ProjectRow.t)
  : list ProjectRow.t :=
  map (fun r => if has_name (project_name p) r then updated_row e p r else r)
      rows.

(** What a run of the edit tab does to the table: [D] says whether the
    rows of [name] were deleted, [Uf] whether they were rewritten; [ok] is
    the answer of the access gate. *)
Definition tab_effect (ok : bool) (e : env) (wd : edit_widgets) (w : world)
           (res : result (run_end * session_state) * world) : Prop :=
  exists fin ss' w' (D Uf : bool) (name : string),
    res = (Returns (fin, ss'), w')
    /\ seq_id w' = seq_id w
    /\ db w' = (if Uf then edited e (edit_data name wd) else fun rows => rows)
                 ((if D then deleted name else fun rows => rows) (db w))
    /\ (D = true ->
        ok = true /\ project_to_edit wd = Some name
        /\ delete_button wd = true /\ confirm_delete wd = true)
    /\ (Uf = true ->
        ok = true /\ project_to_edit wd = Some name
        /\ edit_submitted wd = true /\ edit_valid wd = true)
    /\ (D = false -> Uf = false -> sheet w' = sheet w)
    /\ (ok = false -> fin = Completed /\ D = false /\ Uf = false)
    /\ (ok = true -> project_to_edit wd = Some name -> name <> "" ->
        db w <> [] -> delete_button wd = true -> confirm_delete wd = true ->
        D = true)
    /\ (forall n, project_to_edit wd = Some n -> n = name).

(** Widget values of some runs of the edit tab. *)
Definition signed_in : session_state := {| password_correct := Some true |}.

Definition at_rest (selection : option string) : edit_widgets :=
  {| username_input := "";
     password_input := "";
     login_button := false;
     project_to_edit := selection;
     delete_button := false;
     confirm_delete := false;
     cancel_delete := false;
     edit_one_liner := "";
     edit_description := "";
     edit_ai_usage := "";
     edit_lead_name := "";
     edit_whatsapp_contact := "";
     edit_status := Idea;
     edit_submitted := false |}.

Definition deleting (name : string) : edit_widgets :=
  {| username_input := "";
     password_input := "";
     login_button := false;
     project_to_edit := Some name;
     delete_button := true;
     confirm_delete := true;
     cancel_delete := false;
     edit_one_liner := "";
     edit_description := "";
     edit_ai_usage := "";
     edit_lead_name := "";
     edit_whatsapp_contact := "";
     edit_status := Idea;
     edit_submitted := false |}.

Definition saving (name : string) : edit_widgets :=
  {| username_input := "";
     password_input := "";
     login_button := false;
     project_to_edit := Some name;
     delete_button := false;
     confirm_delete := true;
     cancel_delete := false;
     edit_one_liner := "Chat over guild documents";
     edit_description := "Answers questions about the guild handbook";
     edit_ai_usage := "Retrieval with a language model";
     edit_lead_name := "Ada";
     edit_whatsapp_contact := "+2347012345678";
     edit_status := Launch;
     edit_submitted := true |}.

(** A store whose only row has a status outside the three stages. *)
Definition stray_world : world :=
  snd (add_project (calm 100) (demo "Atlas" "Done") empty_world).

(** The service is there, and reading the sheet raises. *)
Definition read_raises (t : Z) : env :=
  {| CURRENT_TIMESTAMP := t;
     now_strftime := "2025-01-01 00:00:00";
     service_error := None;
     get_error := Some (HttpError "backend error");
     append_error := None;
     update_error := None;
     clear_error := None |}.


(** * Properties *)

(** ** Strings *)

Lemma append_nil_r (s : string) : s ++ "" = s.
Proof. induction s as [|c s IH]; simpl; [reflexivity | now rewrite IH]. Qed.

Lemma append_assoc (a b c : string) : (a ++ b) ++ c = a ++ (b ++ c).
Proof. induction a as [|x a IH]; simpl; [reflexivity | now rewrite IH]. Qed.

Lemma length_app (a b : string) :
  String.length (a ++ b) = (String.length a + String.length b)%nat.
Proof. induction a as [|x a IH]; simpl; [reflexivity | now rewrite IH]. Qed.

Lemma all_chars_app (f : ascii -> bool) (a b : string) :
  all_chars f (a ++ b) = all_chars f a && all_chars f b.
Proof.
  induction a as [|x a IH]; simpl; [reflexivity|].
  now rewrite IH, andb_assoc.
Qed.

Lemma split_at (n : nat) (s : string) :
  (n <= String.length s)%nat ->
  exists a b, s = a ++ b /\ String.length a = n.
Proof.
  revert s; induction n as [|n IH]; intros s Hn.
  - exists "", s; split; reflexivity.
  - destruct s as [|c s]; simpl in Hn; [lia|].
    destruct (IH s) as (a & b & -> & Hlen); [lia|].
    exists (String c a), b; simpl; split; [reflexivity | now rewrite Hlen].
Qed.

(** ** The matcher *)

Lemma rep_req_true (a : Re.atom) (lo : nat) (k : nat -> string -> bool) :
  forall pos s,
    Re.rep_req a lo k pos s = true <->
    exists ds rest,
      s = ds ++ rest /\ String.length ds = lo
      /\ all_chars (Re.atom_matches a) ds = true
      /\ k (pos + lo)%nat rest = true.
Proof.
  induction lo as [|lo IH]; intros pos s; simpl.
  - rewrite Nat.add_0_r; split.
    + intros Hk; exists "", s; repeat split; assumption.
    + intros (ds & rest & -> & Hlen & _ & Hk).
      destruct ds; [exact Hk | discriminate].
  - destruct s as [|c s].
    + split; [discriminate|].
      intros (ds & rest & Hs & Hlen & _).
      destruct ds; simpl in *; discriminate.
    + rewrite andb_true_iff, IH; split.
      * intros (Hc & ds & rest & -> & Hlen & Hall & Hk).
        exists (String c ds), rest; simpl.
        rewrite Hc, Hall, Hlen, Nat.add_succ_r.
        repeat split; assumption.
      * intros (ds & rest & Hs & Hlen & Hall & Hk).
        destruct ds as [|d ds]; simpl in *; [discriminate|].
        injection Hs as -> ->; injection Hlen as Hlen.
        apply andb_true_iff in Hall as [Hd Hall].
        split; [assumption|].
        exists ds, rest.
        rewrite Nat.add_succ_r in Hk.
        repeat split; assumption.
Qed.

Lemma rep_opt_true (a : Re.atom) (extra : nat) (k : nat -> string -> bool) :
  forall pos s,
    Re.rep_opt a extra k pos s = true <->
    exists ds rest,
      s = ds ++ rest /\ (String.length ds <= extra)%nat
      /\ all_chars (Re.atom_matches a) ds = true
      /\ k (pos + String.length ds)%nat rest = true.
Proof.
  induction extra as [|extra IH]; intros pos s; simpl.
  - split.
    + intros Hk; exists "", s; simpl; rewrite Nat.add_0_r.
      repeat split; [lia | assumption].
    + intros (ds & rest & -> & Hlen & _ & Hk).
      destruct ds; simpl in *; [|lia].
      now rewrite Nat.add_0_r in Hk.
  - assert (Hskip : k pos s = true ->
                    exists ds rest,
                      s = ds ++ rest /\ (String.length ds <= S extra)%nat
                      /\ all_chars (Re.atom_matches a) ds = true
                      /\ k (pos + String.length ds)%nat rest = true).
    { intros Hk; exists "", s; simpl; rewrite Nat.add_0_r.
      repeat split; [lia | assumption]. }
    destruct s as [|c s].
    + split; [exact Hskip|].
      intros (ds & rest & Hs & _ & _ & Hk).
      destruct ds; simpl in *; [|discriminate].
      subst rest; now rewrite Nat.add_0_r in Hk.
    + rewrite orb_true_iff, andb_true_iff, IH; split.
      * intros [(Hc & ds & rest & -> & Hlen & Hall & Hk) | Hk];
          [|now apply Hskip].
        exists (String c ds), rest; simpl.
        rewrite Hc, Hall, Nat.add_succ_r.
        repeat split; [lia | assumption].
      * intros (ds & rest & Hs & Hlen & Hall & Hk).
        destruct ds as [|d ds]; simpl in *.
        -- right; subst rest; now rewrite Nat.add_0_r in Hk.
        -- left; injection Hs as -> ->.
           apply andb_true_iff in Hall as [Hd Hall].
           split; [assumption|].
           exists ds, rest.
           rewrite Nat.add_succ_r in Hk.
           repeat split; [lia | assumption | assumption].
Qed.

Lemma at_end_true (s : string) :
  Re.at_end s = true <-> s = "" \/ s = String newline "".
Proof.
  destruct s as [|c [|d s]]; simpl.
  - split; [now left | reflexivity].
  - rewrite Ascii.eqb_eq; split.
    + intros ->; now right.
    + intros [H | H]; [discriminate | now injection H].
  - split; [discriminate | intros [H | H]; discriminate].
Qed.

Lemma all_lit_one (c : ascii) (ds : string) :
  String.length ds = 1%nat ->
  all_chars (Re.atom_matches (Re.Lit c)) ds = true ->
  ds = String c "".
Proof.
  destruct ds as [|d [|d' ds]]; simpl; try discriminate.
  intros _; rewrite andb_true_r, Ascii.eqb_eq; now intros ->.
Qed.

Lemma length_zero (s : string) : (String.length s <= 0)%nat -> s = "".
Proof. destruct s; simpl; [reflexivity | lia]. Qed.

(** ** Validation *)

(** C4, as the code has it: [validate_whatsapp] accepts exactly a ['+'],
    then 11 to 13 decimal digits (the pattern [\d{1,3}\d{10}] does not tell
    the country code from the subscriber number), then nothing or one final
    newline.  So ["+2347012345678"] and also ["+234701234567"] are accepted,
    and ["2347012345678"] is rejected. *)
Theorem validate_whatsapp_shape :
  (forall s,
      validate_whatsapp s = true <->
      exists ds tl,
        s = String "+" (ds ++ tl)
        /\ all_chars is_decimal ds = true
        /\ (11 <= String.length ds <= 13)%nat
        /\ (tl = "" \/ tl = String newline ""))
  /\ validate_whatsapp "+2347012345678" = true
  /\ validate_whatsapp "+234701234567" = true
  /\ validate_whatsapp "2347012345678" = false.
Proof.
  split; [|repeat split; reflexivity].
  intros s; unfold validate_whatsapp, Re.match_, whatsapp_pattern.
  cbn [Re.run Nat.sub Nat.eqb andb]; split.
  - intros H.
    apply rep_req_true in H as (p & r0 & -> & Lp & Ap & H).
    apply all_lit_one in Ap as ->; [|assumption].
    apply rep_opt_true in H as (p' & r1 & -> & Lp' & _ & H).
    apply length_zero in Lp' as ->.
    apply rep_req_true in H as (d1 & r2 & -> & L1 & A1 & H).
    apply rep_opt_true in H as (d2 & r3 & -> & L2 & A2 & H).
    apply rep_req_true in H as (d3 & r4 & -> & L3 & A3 & H).
    apply rep_opt_true in H as (d4 & tl & -> & L4 & _ & H).
    apply length_zero in L4 as ->.
    rewrite andb_true_r in H; apply at_end_true in H.
    exists (d1 ++ d2 ++ d3), tl; simpl.
    rewrite !append_assoc, !all_chars_app, !length_app.
    change (Re.atom_matches Re.Digit) with is_decimal in A1, A2, A3.
    rewrite A1, A2, A3.
    repeat split; [lia | lia | assumption].
  - intros (ds & tl & -> & Hall & [Hlo Hhi] & Htl).
    destruct (split_at 1 ds) as (d1 & rest & -> & L1); [lia|].
    rewrite length_app in Hlo, Hhi.
    destruct (split_at (String.length rest - 10) rest)
      as (d2 & d3 & -> & L2); [lia|].
    rewrite length_app in Hlo, Hhi.
    rewrite !all_chars_app in Hall.
    apply andb_true_iff in Hall as [A1 Hall].
    apply andb_true_iff in Hall as [A2 A3].
    rewrite length_app in L2.
    apply rep_req_true; exists "+", (d1 ++ (d2 ++ d3) ++ tl).
    split; [simpl; now rewrite !append_assoc|].
    split; [reflexivity|]; split; [reflexivity|].
    apply rep_opt_true; exists "", (d1 ++ (d2 ++ d3) ++ tl).
    split; [reflexivity|]; split; [simpl; lia|]; split; [reflexivity|].
    apply rep_req_true; exists d1, ((d2 ++ d3) ++ tl).
    split; [reflexivity|]; split; [exact L1|]; split; [exact A1|].
    apply rep_opt_true; exists d2, (d3 ++ tl).
    split; [apply append_assoc|]; split; [lia|]; split; [exact A2|].
    apply rep_req_true; exists d3, tl.
    split; [reflexivity|]; split; [lia|]; split; [exact A3|].
    apply rep_opt_true; exists "", tl.
    split; [reflexivity|]; split; [simpl; lia|]; split; [reflexivity|].
    rewrite andb_true_r; now apply at_end_true.
Qed.

Lemma validate_whatsapp_shape_witness :
  validate_whatsapp "+12025550123" = true.
Proof.
  apply (proj1 validate_whatsapp_shape).
  exists "12025550123", ""; repeat split; [simpl; lia | simpl; lia | now left].
Defined.

(** C4, where the claim fails: twelve digits after the ['+'] are accepted
    (read as a two-digit country code and ten further digits), and so is a
    valid number followed by a newline. *)
Lemma validate_whatsapp_accepts_more :
  validate_whatsapp "+234701234567" = true
  /\ validate_whatsapp ("+2347012345678" ++ String newline "") = true.
Proof. split; reflexivity. Qed.

(** ** The access gate *)

Lemma lower_char_idem (a : ascii) : lower_char (lower_char a) = lower_char a.
Proof. destruct a as [[] [] [] [] [] [] [] []]; reflexivity. Qed.

Lemma case_variants_lower (a b : ascii) :
  case_variants a b = true -> lower_char a = lower_char b.
Proof.
  unfold case_variants; rewrite !orb_true_iff, !andb_true_iff, !Ascii.eqb_eq.
  intros [[-> | [_ ->]] | [_ ->]];
    [reflexivity | now rewrite lower_char_idem | now rewrite lower_char_idem].
Qed.

Lemma differ_only_in_case_lower (s t : string) :
  differ_only_in_case s t = true -> lower s = lower t.
Proof.
  revert t; induction s as [|a s IH]; intros [|b t]; simpl;
    try discriminate; [reflexivity|].
  rewrite andb_true_iff; intros [Hab Hst].
  now rewrite (case_variants_lower _ _ Hab), (IH _ Hst).
Qed.

Lemma credentials_match_true (U P username password : string) :
  credentials_match U P username password = true
  <-> lower username = U /\ Sha256.hexdigest (encode password) = P.
Proof.
  unfold credentials_match.
  now rewrite andb_true_iff, !String.eqb_eq.
Qed.

(** C9: with the Login button pressed in a session that is not yet
    authenticated, [check_password] succeeds exactly when the lower-cased
    user name is the configured one and the SHA-256 hex digest of the
    password is the configured digest; and two user names that differ only
    in letter case always get the same answer. *)
Theorem check_password_compares (U P : string) (ss : session_state)
        (password : string) :
  (forall username,
      password_correct ss <> Some true ->
      fst (fst (check_password U P ss username password true)) = true
      <-> lower username = U /\ Sha256.hexdigest (encode password) = P)
  /\ (forall u1 u2 login,
         differ_only_in_case u1 u2 = true ->
         check_password U P ss u1 password login
         = check_password U P ss u2 password login).
Proof.
  split.
  - intros username Hss.
    rewrite <- credentials_match_true.
    unfold check_password.
    destruct ss as [[[|]|]]; simpl in *; try congruence;
      destruct (credentials_match U P username password); simpl;
      split; congruence.
  - intros u1 u2 login Hcase.
    unfold check_password, credentials_match.
    now rewrite (differ_only_in_case_lower _ _ Hcase).
Qed.

Lemma check_password_compares_witness :
  {| password_correct := None |}.(password_correct) <> Some true
  /\ differ_only_in_case "AdMin" "ADMIN" = true
  /\ fst (fst (check_password
                 "admin"
                 "ba7816bf8f01cfea414140de5dae2223b00361a396177a9cb410ff61f20015ad"
                 {| password_correct := None |} "AdMin" "abc" true)) = true
  /\ check_password
       "admin"
       "ba7816bf8f01cfea414140de5dae2223b00361a396177a9cb410ff61f20015ad"
       {| password_correct := None |} "AdMin" "abc" true
     = check_password
         "admin"
         "ba7816bf8f01cfea414140de5dae2223b00361a396177a9cb410ff61f20015ad"
         {| password_correct := None |} "ADMIN" "abc" true.
Proof.
  destruct (check_password_compares
              "admin"
              "ba7816bf8f01cfea414140de5dae2223b00361a396177a9cb410ff61f20015ad"
              {| password_correct := None |} "abc") as [Hiff Hcase].
  split; [discriminate|].
  split; [reflexivity|].
  split.
  - apply Hiff; [discriminate|].
    split; vm_compute; reflexivity.
  - apply Hcase; reflexivity.
Defined.

(** ** The local store *)

Lemma has_name_true (n : string) (r : ProjectRow.t) :
  has_name n r = true <-> ProjectRow.project_name r = n.
Proof. unfold has_name; apply String.eqb_eq. Qed.

Lemma existsb_has_name (n : string) (rows : list ProjectRow.t) :
  existsb (has_name n) rows = true <-> In n (names rows).
Proof.
  unfold names; rewrite existsb_exists, in_map_iff.
  split; intros (r & H1 & H2).
  - exists r; split; [now apply has_name_true | assumption].
  - exists r; split; [assumption | now apply has_name_true].
Qed.

Lemma existsb_has_name_false (n : string) (rows : list ProjectRow.t) :
  ~ In n (names rows) -> existsb (has_name n) rows = false.
Proof.
  intros H; destruct (existsb (has_name n) rows) eqn:E; [|reflexivity].
  now apply existsb_has_name in E.
Qed.

Lemma filter_absent (n : string) (rows : list ProjectRow.t) :
  ~ In n (names rows) -> filter (has_name n) rows = [].
Proof.
  induction rows as [|r rows IH]; simpl; intros H; [reflexivity|].
  destruct (has_name n r) eqn:E.
  - apply has_name_true in E; tauto.
  - apply IH; tauto.
Qed.

Lemma filter_unique (r : ProjectRow.t) (rows : list ProjectRow.t) :
  NoDup (names rows) -> In r rows ->
  filter (has_name (ProjectRow.project_name r)) rows = [r].
Proof.
  induction rows as [|h rows IH]; simpl; intros Hnd Hin; [contradiction|].
  apply NoDup_cons_iff in Hnd as [Hh Hnd].
  destruct Hin as [-> | Hin].
  - unfold has_name at 1; rewrite String.eqb_refl.
    now rewrite filter_absent.
  - destruct (has_name (ProjectRow.project_name r) h) eqn:E.
    + apply has_name_true in E; rewrite E in Hh.
      exfalso; apply Hh; unfold names; now apply in_map.
    + now apply IH.
Qed.


Lemma insert_desc_perm (r : ProjectRow.t) (l : list ProjectRow.t) :
  Permutation (insert_desc r l) (r :: l).
Proof.
  induction l as [|h t IH]; simpl; [reflexivity|].
  destruct (ProjectRow.date_added h <=? ProjectRow.date_added r); [reflexivity|].
  rewrite IH; apply perm_swap.
Qed.

Lemma order_by_perm (l : list ProjectRow.t) :
  Permutation (order_by_date_added_desc l) l.
Proof.
  induction l as [|r l IH]; simpl; [reflexivity|].
  rewrite insert_desc_perm; now constructor.
Qed.

Lemma insert_desc_sorted (r : ProjectRow.t) (l : list ProjectRow.t) :
  StronglySorted newer_first l -> StronglySorted newer_first (insert_desc r l).
Proof.
  induction 1 as [|h t Hs IH Hh]; simpl.
  - repeat constructor.
  - destruct (ProjectRow.date_added h <=? ProjectRow.date_added r) eqn:E.
    + apply Z.leb_le in E.
      constructor; [now constructor|].
      constructor; [exact E|].
      eapply Forall_impl; [|exact Hh].
      unfold newer_first; intros x Hx; lia.
    + apply Z.leb_gt in E.
      constructor; [exact IH|].
      eapply Permutation_Forall; [symmetry; apply insert_desc_perm|].
      constructor; [unfold newer_first; lia | exact Hh].
Qed.

Lemma get_all_projects_listing (w : world) :
  Permutation (get_all_projects w) (db w).
Proof. apply order_by_perm. Qed.

(** C8: [get_all_projects] returns every row of the table (the same rows,
    as many) ordered by decreasing [date_added], the newest first. *)
Theorem get_all_projects_newest_first (w : world) :
  Permutation (get_all_projects w) (db w)
  /\ List.length (get_all_projects w) = List.length (db w)
  /\ StronglySorted newer_first (get_all_projects w).
Proof.
  unfold get_all_projects; split; [apply order_by_perm|].
  split; [apply Permutation_length, order_by_perm|].
  induction (db w) as [|r l IH]; simpl; [constructor|].
  now apply insert_desc_sorted.
Qed.

(** ** Register *)

(** C1: registering a name that the store already holds fails with the
    duplicate-name message, changes nothing at all (no row, no mirror
    append), and the store still has exactly one row of that name, the
    original one. *)
Theorem add_project_duplicate (e : env) (p : project_data) (w : world) :
  NoDup (names (db w)) ->
  In (project_name p) (names (db w)) ->
  add_project e p w = (Returns (false, "Project name already exists!"), w)
  /\ exists r,
      In r (db w)
      /\ filter (has_name (project_name p)) (db (snd (add_project e p w)))
         = [r].
Proof.
  intros Hnd Hin.
  assert (Hres : add_project e p w
                 = (Returns (false, "Project name already exists!"), w)).
  { unfold add_project, try_except, bind, sql_insert.
    apply existsb_has_name in Hin; now rewrite Hin. }
  split; [exact Hres|].
  rewrite Hres; simpl.
  unfold names in Hin; apply in_map_iff in Hin as (r & Hr & Hin).
  exists r; split; [assumption|].
  rewrite <- Hr; now apply filter_unique.
Qed.

Ltac unfold_app :=
  unfold add_project, update_project, delete_project, sync_to_sheets,
    find_row_in_sheets, init_google_sheets, values_get, values_append,
    values_update, values_clear, sql_insert, sql_update, sql_delete,
    fail_if, try_except, bind, ret, raise, lift, emit.

(** C2: when the insert succeeds and the mirror append fails (the service
    cannot be built, or the append call raises), [add_project] still
    returns success, the new row is in the store, the sheet is untouched,
    and the message carries the mirror's own failure text, which names
    Google Sheets. *)
Theorem add_project_mirror_failure (e : env) (p : project_data) (w : world) :
  ~ In (project_name p) (names (db w)) ->
  service_error e <> None \/ append_error e <> None ->
  exists msg w',
    add_project e p w
    = (Returns (true, "Project registered in database, but " ++ msg), w')
    /\ (msg = "Failed to connect to Google Sheets"
        \/ exists x, msg = "Error syncing to Google Sheets: " ++ str x)
    /\ mentions "Google Sheets" msg
    /\ db w' = (db w ++ [new_row e (seq_id w + 1) p])%list
    /\ In (new_row e (seq_id w + 1) p) (get_all_projects w')
    /\ sheet w' = sheet w.
Proof.
  intros Hfresh Hfail.
  apply existsb_has_name_false in Hfresh.
  assert (Hin : forall w', db w' = (db w ++ [new_row e (seq_id w + 1) p])%list ->
                           In (new_row e (seq_id w + 1) p)
                              (get_all_projects w')).
  { intros w' Hdb.
    eapply Permutation_in;
      [symmetry; apply get_all_projects_listing|].
    rewrite Hdb; apply in_or_app; right; now left. }
  destruct (service_error e) as [x|] eqn:Hs.
  - eexists; eexists; split.
    + unfold_app; rewrite Hfresh, Hs; simpl; reflexivity.
    + split; [now left|].
      split; [now exists "Failed to connect to ", ""|].
      split; [reflexivity|]; split; [now apply Hin | reflexivity].
  - destruct (append_error e) as [x|] eqn:Ha; [|destruct Hfail; congruence].
    eexists; eexists; split.
    + unfold_app; rewrite Hfresh, Hs, Ha; simpl; reflexivity.
    + split; [right; now exists x|].
      split; [now exists "Error syncing to ", (": " ++ str x)|].
      split; [reflexivity|]; split; [now apply Hin | reflexivity].
Qed.

(** ** What every call does to the store, whatever the mirror does *)

Ltac env_case :=
  match goal with
  | |- context [service_error ?e] => destruct (service_error e) eqn:?
  | |- context [get_error ?e] => destruct (get_error e) eqn:?
  | |- context [append_error ?e] => destruct (append_error e) eqn:?
  | |- context [update_error ?e] => destruct (update_error e) eqn:?
  | |- context [clear_error ?e] => destruct (clear_error e) eqn:?
  | |- context [scan_rows ?rows ?i ?n] =>
      destruct (scan_rows rows i n) as [[[|?]|]|?] eqn:?
  | |- context [existsb ?f ?l] => destruct (existsb f l) eqn:?
  end; simpl.

Lemma find_row_in_sheets_returns (e : env) (name : string) (w : world) :
  exists r w',
    find_row_in_sheets e name w = (Returns r, w')
    /\ db w' = db w /\ seq_id w' = seq_id w /\ sheet w' = sheet w.
Proof.
  unfold_app; repeat env_case; eexists; eexists; repeat split.
Qed.

Lemma sync_to_sheets_returns (e : env) (p : project_data) (u : bool)
      (w : world) :
  exists r w',
    sync_to_sheets e p u w = (Returns r, w')
    /\ db w' = db w /\ seq_id w' = seq_id w.
Proof.
  unfold_app; destruct u; repeat env_case; eexists; eexists; repeat split.
Qed.

Lemma update_project_returns (e : env) (p : project_data) (w : world) :
  exists msg w',
    update_project e p w = (Returns (true, msg), w')
    /\ db w' = map (fun r => if has_name (project_name p) r
                             then updated_row e p r else r) (db w)
    /\ seq_id w' = seq_id w.
Proof.
  unfold_app; repeat env_case; eexists; eexists; repeat split.
Qed.

Lemma delete_project_returns (e : env) (name : string) (w : world) :
  exists flag msg w',
    delete_project e name w = (Returns (flag, msg), w')
    /\ db w' = filter (fun r => negb (has_name name r)) (db w)
    /\ seq_id w' = seq_id w
    /\ (flag = false -> service_error e <> None \/ clear_error e <> None).
Proof.
  unfold_app; repeat env_case; eexists; eexists; eexists;
    (split; [reflexivity|]); simpl;
    (split; [try reflexivity|]);
    try (destruct (_ <? _)%nat; reflexivity);
    (split; [try reflexivity|]);
    try (destruct (_ <? _)%nat; reflexivity);
    intros; try discriminate;
    try (left; discriminate); try (right; discriminate).
Qed.

Lemma add_project_returns (e : env) (p : project_data) (w : world) :
  exists flag msg w',
    add_project e p w = (Returns (flag, msg), w')
    /\ ((flag = false /\ w' = w /\ In (project_name p) (names (db w)))
        \/ (flag = true
            /\ ~ In (project_name p) (names (db w))
            /\ db w' = (db w ++ [new_row e (seq_id w + 1) p])%list
            /\ seq_id w' = seq_id w + 1)).
Proof.
  destruct (existsb (has_name (project_name p)) (db w)) eqn:E.
  - exists false, "Project name already exists!", w; split.
    + unfold_app; now rewrite E.
    + left; repeat split; now apply existsb_has_name.
  - assert (Hfresh : ~ In (project_name p) (names (db w))).
    { intros H; apply existsb_has_name in H; congruence. }
    unfold_app; rewrite E; simpl.
    repeat env_case; eexists; eexists; eexists;
      (split; [reflexivity|]); right; repeat split; assumption.
Qed.

Lemma add_project_duplicate_witness :
  NoDup (names (db atlas_world))
  /\ In "Atlas" (names (db atlas_world))
  /\ add_project (calm 200) (demo "Atlas" "MVP") atlas_world
     = (Returns (false, "Project name already exists!"), atlas_world).
Proof.
  assert (Hnd : NoDup (names (db atlas_world))).
  { vm_compute; constructor; [intros [] | constructor]. }
  assert (Hin : In "Atlas" (names (db atlas_world))).
  { vm_compute; now left. }
  split; [exact Hnd|]; split; [exact Hin|].
  exact (proj1 (add_project_duplicate (calm 200) (demo "Atlas" "MVP")
                                      atlas_world Hnd Hin)).
Defined.

Lemma add_project_mirror_failure_witness :
  ~ In "Borealis" (names (db atlas_world))
  /\ (service_error (writes_raise 200) <> None
      \/ append_error (writes_raise 200) <> None)
  /\ exists msg w',
      add_project (writes_raise 200) (demo "Borealis" "MVP") atlas_world
      = (Returns (true, "Project registered in database, but " ++ msg), w')
      /\ mentions "Google Sheets" msg
      /\ sheet w' = sheet atlas_world.
Proof.
  assert (Hfresh : ~ In "Borealis" (names (db atlas_world))).
  { vm_compute; intros [H | []]; discriminate. }
  assert (Hfail : service_error (writes_raise 200) <> None
                  \/ append_error (writes_raise 200) <> None).
  { right; discriminate. }
  split; [exact Hfresh|]; split; [exact Hfail|].
  destruct (add_project_mirror_failure
              (writes_raise 200) (demo "Borealis" "MVP") atlas_world
              Hfresh Hfail)
    as (msg & w' & Hres & _ & Hm & _ & _ & Hsheet).
  exists msg, w'; repeat split; assumption.
Defined.

(** ** Delete *)

(** C3, where the claim fails: with the mirror out of reach the local row
    is deleted, and the returned flag is [False], both when the service
    cannot be built and when the clear call raises. *)
Lemma delete_project_flag_false :
  delete_project (mirror_down 200) "Atlas" atlas_world
  = (Returns
       (false,
        "Project deleted from database but failed to connect to Google Sheets"),
     {| db := [];
        seq_id := 1;
        sheet := sheet atlas_world;
        out := ["Error connecting to Google Sheets: connection refused"] |})
  /\ delete_project (writes_raise 200) "Atlas" atlas_world
     = (Returns (false, "Error deleting project: quota exceeded"),
        {| db := []; seq_id := 1; sheet := sheet atlas_world; out := [] |}).
Proof. split; reflexivity. Qed.

(** C3, as the code has it: when the service cannot be built or the clear
    call raises, [delete_project] returns without raising and the local row
    is gone; when the service cannot be built, the flag is [False] and the
    message says that the project was deleted from the database and that
    the connection to Google Sheets failed. *)
Theorem delete_project_mirror_unreachable (e : env) (name : string)
        (w : world) :
  service_error e <> None \/ clear_error e <> None ->
  exists flag msg w',
    delete_project e name w = (Returns (flag, msg), w')
    /\ db w' = filter (fun r => negb (has_name name r)) (db w)
    /\ ~ In name (names (db w'))
    /\ (service_error e <> None ->
        flag = false
        /\ msg = "Project deleted from database but failed to connect to Google Sheets"
        /\ sheet w' = sheet w).
Proof.
  intros _.
  assert (Hgone : forall w',
             db w' = filter (fun r => negb (has_name name r)) (db w) ->
             ~ In name (names (db w'))).
  { intros w' ->; unfold names; rewrite in_map_iff.
    intros (r & Hr & Hin); apply filter_In in Hin as [_ Hin].
    apply has_name_true in Hr; now rewrite Hr in Hin. }
  destruct (service_error e) as [x|] eqn:Hs.
  - eexists; eexists; eexists; split.
    + unfold_app; rewrite Hs; simpl; reflexivity.
    + split; [reflexivity|]; split; [now apply Hgone|].
      intros _; repeat split.
  - destruct (delete_project_returns e name w)
      as (flag & msg & w' & Hres & Hdb & _ & _).
    exists flag, msg, w'; split; [exact Hres|].
    split; [exact Hdb|]; split; [now apply Hgone|].
    intros H; congruence.
Qed.

Lemma delete_project_mirror_unreachable_witness :
  (service_error (mirror_down 200) <> None
   \/ clear_error (mirror_down 200) <> None)
  /\ exists w',
      delete_project (mirror_down 200) "Atlas" atlas_world
      = (Returns
           (false,
            "Project deleted from database but failed to connect to Google Sheets"),
         w')
      /\ ~ In "Atlas" (names (db w')).
Proof.
  assert (Hdown : service_error (mirror_down 200) <> None
                  \/ clear_error (mirror_down 200) <> None).
  { left; discriminate. }
  split; [exact Hdown|].
  destruct (delete_project_mirror_unreachable
              (mirror_down 200) "Atlas" atlas_world Hdown)
    as (flag & msg & w' & Hres & _ & Hgone & Hmsg).
  destruct Hmsg as (-> & -> & _); [discriminate|].
  exists w'; split; assumption.
Defined.

(** ** Names that the store does not hold *)





(** ** Edit *)

Lemma filter_perm (f : ProjectRow.t -> bool) (l l' : list ProjectRow.t) :
  Permutation l l' -> Permutation (filter f l) (filter f l').
Proof.
  induction 1 as [|x l l' _ IH|x y l|l l' l'' _ IH1 _ IH2]; simpl.
  - constructor.
  - destruct (f x); [now constructor | assumption].
  - destruct (f x), (f y); try reflexivity; apply perm_swap.
  - now transitivity (filter f l').
Qed.

Lemma filter_update (e : env) (p : project_data) (rows : list ProjectRow.t) :
  filter (has_name (project_name p))
         (map (fun r => if has_name (project_name p) r
                        then updated_row e p r else r) rows)
  = map (updated_row e p) (filter (has_name (project_name p)) rows).
Proof.
  induction rows as [|r rows IH]; simpl; [reflexivity|].
  destruct (has_name (project_name p) r) eqn:E; simpl.
  - unfold has_name at 1; simpl; fold (has_name (project_name p) r).
    rewrite E; simpl; now rewrite IH.
  - now rewrite E.
Qed.

(** C6, as the code has it: after [update_project] on a registered
    project, the listing holds exactly one record of that name; it carries
    the new value of every edited field, its [date_added] is the one of the
    registration and its [last_updated] is the second of the update.  So
    [last_updated] is later than [date_added] exactly when the update
    happens in a later second than the registration, and equal to it when
    both happen within the same second. *)
Theorem update_project_round_trip (e : env) (p : project_data) (w : world)
        (r0 : ProjectRow.t) :
  NoDup (names (db w)) ->
  In r0 (db w) ->
  ProjectRow.project_name r0 = project_name p ->
  exists msg w' r,
    update_project e p w = (Returns (true, msg), w')
    /\ filter (has_name (project_name p)) (get_all_projects w') = [r]
    /\ ProjectRow.project_name r = project_name p
    /\ ProjectRow.one_liner r = one_liner p
    /\ ProjectRow.description r = description p
    /\ ProjectRow.ai_usage r = ai_usage p
    /\ ProjectRow.lead_name r = lead_name p
    /\ ProjectRow.whatsapp_contact r = whatsapp_contact p
    /\ ProjectRow.status r = status p
    /\ ProjectRow.date_added r = ProjectRow.date_added r0
    /\ ProjectRow.last_updated r = CURRENT_TIMESTAMP e
    /\ (ProjectRow.date_added r0 < CURRENT_TIMESTAMP e
        <-> ProjectRow.last_updated r > ProjectRow.date_added r)
    /\ (ProjectRow.date_added r0 = CURRENT_TIMESTAMP e
        -> ProjectRow.last_updated r = ProjectRow.date_added r).
Proof.
  intros Hnd Hin Hname.
  destruct (update_project_returns e p w) as (msg & w' & Hres & Hdb & _).
  exists msg, w', (updated_row e p r0).
  split; [exact Hres|]; split.
  - apply Permutation_length_1_inv.
    rewrite (filter_perm _ _ _ (get_all_projects_listing w')).
    rewrite Hdb, filter_update, <- Hname, (filter_unique r0) by assumption.
    reflexivity.
  - simpl; repeat split; try assumption; try lia.
Qed.

Lemma update_project_round_trip_witness :
  NoDup (names (db atlas_world))
  /\ In (new_row (calm 100) 1 (demo "Atlas" "Idea")) (db atlas_world)
  /\ exists msg w' r,
      update_project (calm 160) (demo "Atlas" "Launch") atlas_world
      = (Returns (true, msg), w')
      /\ filter (has_name "Atlas") (get_all_projects w') = [r]
      /\ ProjectRow.status r = "Launch"
      /\ ProjectRow.last_updated r > ProjectRow.date_added r.
Proof.
  assert (Hnd : NoDup (names (db atlas_world))).
  { vm_compute; constructor; [intros [] | constructor]. }
  assert (Hin : In (new_row (calm 100) 1 (demo "Atlas" "Idea"))
                   (db atlas_world)).
  { vm_compute; now left. }
  split; [exact Hnd|]; split; [exact Hin|].
  destruct (update_project_round_trip
              (calm 160) (demo "Atlas" "Launch") atlas_world
              (new_row (calm 100) 1 (demo "Atlas" "Idea")) Hnd Hin eq_refl)
    as (msg & w' & r & Hres & Hone & _ & _ & _ & _ & _ & _ & Hst & _ & _
        & Hlater & _).
  exists msg, w', r; repeat split; try assumption.
  apply Hlater; reflexivity.
Defined.

(** C6, where the claim fails: a project registered and edited within the
    same second reads back with [last_updated] equal to [date_added], not
    greater. *)
Lemma edit_within_the_same_second :
  map (fun r => (ProjectRow.project_name r, ProjectRow.status r,
                 ProjectRow.date_added r, ProjectRow.last_updated r))
      (get_all_projects
         (snd (update_project (calm 100) (demo "Atlas" "Launch")
                              atlas_world)))
  = [("Atlas", "Launch", 100, 100)]
  /\ forallb (fun r => ProjectRow.date_added r <? ProjectRow.last_updated r)
             (get_all_projects
                (snd (update_project (calm 100) (demo "Atlas" "Launch")
                                     atlas_world)))
     = false.
Proof. split; reflexivity. Qed.

(** ** Invariants of the data model *)

Lemma names_update (e : env) (p : project_data) (rows : list ProjectRow.t) :
  map identity
      (map (fun r => if has_name (project_name p) r
                     then updated_row e p r else r) rows)
  = map identity rows.
Proof.
  rewrite map_map; apply map_ext; intros r.
  now destruct (has_name (project_name p) r).
Qed.

Lemma names_of_identity (rows rows' : list ProjectRow.t) :
  map identity rows = map identity rows' -> names rows = names rows'.
Proof.
  intros H; unfold names.
  assert (Hn : forall l, map ProjectRow.project_name l
                         = map (fun t => snd (fst t)) (map identity l)).
  { intros l; rewrite map_map; now apply map_ext. }
  now rewrite (Hn rows), (Hn rows'), H.
Qed.

Lemma NoDup_names_filter (f : ProjectRow.t -> bool) (rows : list ProjectRow.t) :
  NoDup (names rows) -> NoDup (names (filter f rows)).
Proof.
  induction rows as [|r rows IH]; simpl; intros H; [constructor|].
  apply NoDup_cons_iff in H as [Hr H].
  destruct (f r); simpl; [|now apply IH].
  constructor; [|now apply IH].
  unfold names in *; rewrite in_map_iff in *.
  intros (x & Hx & Hin); apply Hr.
  exists x; split; [assumption|].
  now apply filter_In in Hin as [Hin _].
Qed.

Lemma NoDup_names_snoc (r : ProjectRow.t) (rows : list ProjectRow.t) :
  NoDup (names rows) -> ~ In (ProjectRow.project_name r) (names rows) ->
  NoDup (names (rows ++ [r])).
Proof.
  intros Hnd Hfresh; unfold names in *; rewrite map_app; simpl.
  apply NoDup_rev in Hnd.
  rewrite <- (rev_involutive (map ProjectRow.project_name rows ++ _)).
  apply NoDup_rev; rewrite rev_app_distr; simpl.
  constructor; [|assumption].
  now rewrite <- in_rev.
Qed.




(** ** Locating a row of the mirror *)

Lemma scan_rows_blank (name : string) (pre post : list sheet_row) :
  existsb (first_cell_is name) pre = false ->
  forall idx,
    scan_rows (pre ++ [] :: post) idx name
    = Raises (IndexError "list index out of range").
Proof.
  induction pre as [|row pre IH]; simpl; intros Hpre idx; [reflexivity|].
  apply orb_false_iff in Hpre as [Hrow Hpre].
  destruct row as [|cell cells]; [reflexivity|].
  simpl in Hrow; rewrite Hrow; now apply IH.
Qed.

(** C10: when the rows that [values().get] returns have an empty row
    before the first row whose first cell is the project name,
    [find_row_in_sheets] raises [IndexError] on [row[0]], catches it,
    prints it and returns [None], although the project's row is further
    down.  So the update path reports that the project is not in the sheet,
    the delete path clears nothing, and the row stays in the sheet. *)
Theorem find_row_in_sheets_blank_row (e : env) (p : project_data)
        (w : world) (pre post : list sheet_row) (cells : list string) :
  get_error e = None ->
  sheet w = (pre ++ [] :: post)%list ->
  existsb (first_cell_is (project_name p)) pre = false ->
  In (project_name p :: cells) post ->
  let seen := logged "Error finding row: list index out of range" in
  find_row_in_sheets e (project_name p) w = (Returns None, seen w)
  /\ (service_error e = None ->
      sync_to_sheets e p true w
      = (Returns (false, "Project not found in Google Sheets"), seen w)
      /\ delete_project e (project_name p) w
         = (Returns (true, "Project deleted from database"),
            seen (set_db (filter (fun r => negb (has_name (project_name p) r))
                                 (db w)) w))
      /\ In (project_name p :: cells)
            (sheet (snd (delete_project e (project_name p) w)))).
Proof.
  intros Hget Hsheet Hpre Hlater seen.
  assert (Hfind : forall w1,
             sheet w1 = sheet w ->
             find_row_in_sheets e (project_name p) w1
             = (Returns None, seen w1)).
  { intros w1 Hw1.
    assert (Hscan : scan_rows (sheet w1) 0 (project_name p)
                    = Raises (IndexError "list index out of range")).
    { rewrite Hw1, Hsheet; now apply scan_rows_blank. }
    unfold_app; rewrite Hget; simpl; now rewrite Hscan. }
  split; [now apply Hfind|].
  intros Hservice.
  assert (Hdel : delete_project e (project_name p) w
                 = (Returns (true, "Project deleted from database"),
                    seen (set_db (filter (fun r =>
                                            negb (has_name (project_name p) r))
                                         (db w)) w))).
  { unfold delete_project, init_google_sheets, sql_delete, try_except, bind,
      ret; rewrite Hservice; simpl.
    now rewrite Hfind. }
  split; [|split; [exact Hdel|]].
  - unfold sync_to_sheets, init_google_sheets, try_except, bind, ret.
    rewrite Hservice; simpl.
    now rewrite Hfind.
  - rewrite Hdel; simpl; rewrite Hsheet.
    apply in_or_app; right; now right.
Qed.

Lemma find_row_in_sheets_blank_row_witness :
  get_error (calm 400) = None
  /\ sheet blanked_world
     = ([] ++ [] :: [sheet_values (calm 200) (demo "Borealis" "MVP") false])%list
  /\ find_row_in_sheets (calm 400) "Borealis" blanked_world
     = (Returns None,
        logged "Error finding row: list index out of range" blanked_world)
  /\ sync_to_sheets (calm 400) (demo "Borealis" "Launch") true blanked_world
     = (Returns (false, "Project not found in Google Sheets"),
        logged "Error finding row: list index out of range" blanked_world).
Proof.
  assert (Hsheet : sheet blanked_world
                   = ([] ++ [] :: [sheet_values (calm 200)
                                                (demo "Borealis" "MVP")
                                                false])%list).
  { reflexivity. }
  split; [reflexivity|]; split; [exact Hsheet|].
  destruct (find_row_in_sheets_blank_row
              (calm 400) (demo "Borealis" "Launch") blanked_world
              [] [sheet_values (calm 200) (demo "Borealis" "MVP") false]
              (tl (sheet_values (calm 200) (demo "Borealis" "MVP") false))
              eq_refl Hsheet eq_refl (or_introl eq_refl))
    as [Hfind Hrest].
  split; [exact Hfind|].
  exact (proj1 (Hrest eq_refl)).
Defined.

(** * Further properties of the code *)

(** ** Registering with the mirror at hand *)



(** ** Locating a row when no row above is empty *)

Lemma scan_rows_found (name : string) (cells : list string)
      (pre post : list sheet_row) :
  forallb (other_project name) pre = true ->
  forall idx,
    scan_rows (pre ++ (name :: cells) :: post) idx name
    = Returns (Some (idx + List.length pre + 2)%nat).
Proof.
  induction pre as [|row pre IH]; simpl; intros Hpre idx.
  - now rewrite String.eqb_refl, Nat.add_0_r.
  - apply andb_true_iff in Hpre as [Hrow Hpre].
    destruct row as [|cell rest]; [discriminate|].
    simpl in Hrow; apply negb_true_iff in Hrow; rewrite Hrow.
    rewrite IH by assumption; do 3 f_equal; lia.
Qed.

Lemma scan_rows_none (name : string) (rows : list sheet_row) :
  forallb (other_project name) rows = true ->
  forall idx, scan_rows rows idx name = Returns None.
Proof.
  induction rows as [|row rows IH]; simpl; intros Hrows idx; [reflexivity|].
  apply andb_true_iff in Hrows as [Hrow Hrows].
  destruct row as [|cell rest]; [discriminate|].
  simpl in Hrow; apply negb_true_iff in Hrow; rewrite Hrow.
  now apply IH.
Qed.

(** X2: when [values().get] works and no row above is empty,
    [find_row_in_sheets] returns the sheet row number (counted from 2) of
    the first row whose first cell is the name, and [None] when no row has
    it; it changes nothing and prints nothing. *)
Theorem find_row_in_sheets_first_match (e : env) (name : string) (w : world) :
  get_error e = None ->
  (forall pre cells post,
      sheet w = (pre ++ (name :: cells) :: post)%list ->
      forallb (other_project name) pre = true ->
      find_row_in_sheets e name w
      = (Returns (Some (List.length pre + 2)%nat), w))
  /\ (forallb (other_project name) (sheet w) = true ->
      find_row_in_sheets e name w = (Returns None, w)).
Proof.
  intros Hget; split.
  - intros pre cells post Hsheet Hpre.
    unfold_app; rewrite Hget; simpl.
    now rewrite Hsheet, scan_rows_found.
  - intros Hrows.
    unfold_app; rewrite Hget; simpl.
    now rewrite scan_rows_none.
Qed.

Lemma find_row_in_sheets_first_match_witness :
  get_error (calm 200) = None
  /\ find_row_in_sheets (calm 200) "Atlas" atlas_world
     = (Returns (Some 2%nat), atlas_world)
  /\ find_row_in_sheets (calm 200) "Borealis" atlas_world
     = (Returns None, atlas_world).
Proof.
  destruct (find_row_in_sheets_first_match (calm 200) "Atlas" atlas_world
                                           eq_refl) as [Hfound _].
  destruct (find_row_in_sheets_first_match (calm 200) "Borealis" atlas_world
                                           eq_refl) as [_ Hnone].
  split; [reflexivity|]; split.
  - apply (Hfound [] (tl (sheet_values (calm 100) (demo "Atlas" "Idea")
                                       false)) []); reflexivity.
  - apply Hnone; reflexivity.
Defined.

Lemma set_row_app (r x : sheet_row) (pre post : list sheet_row) :
  set_row (List.length pre) r (pre ++ x :: post) = (pre ++ r :: post)%list.
Proof.
  induction pre as [|row pre IH]; simpl; [reflexivity | now rewrite IH].
Qed.

(** X3: when the mirror works and the project's row is the first of its
    name with no empty row above, the update path of [sync_to_sheets]
    overwrites exactly that row with the new values, marked "Updated", and
    leaves every other row and the table as they were. *)
Theorem sync_to_sheets_replaces_row (e : env) (p : project_data) (w : world)
        (pre post : list sheet_row) (cells : list string) :
  service_error e = None ->
  get_error e = None ->
  update_error e = None ->
  sheet w = (pre ++ (project_name p :: cells) :: post)%list ->
  forallb (other_project (project_name p)) pre = true ->
  sync_to_sheets e p true w
  = (Returns (true, "Successfully updated in Google Sheets"),
     set_sheet (pre ++ sheet_values e p true :: post)%list w)
  /\ last (sheet_values e p true) "" = "Updated".
Proof.
  intros Hs Hg Hu Hsheet Hpre; split; [|reflexivity].
  assert (Hscan : scan_rows (sheet w) 0 (project_name p)
                  = Returns (Some (List.length pre + 2)%nat)).
  { rewrite Hsheet; now apply scan_rows_found. }
  unfold_app; rewrite Hs, Hg; simpl.
  rewrite Hscan; simpl.
  replace (List.length pre + 2)%nat with (S (S (List.length pre))) by lia.
  simpl; rewrite Hu; simpl.
  now rewrite Nat.sub_0_r, Hsheet, set_row_app.
Qed.

Lemma sync_to_sheets_replaces_row_witness :
  service_error (calm 200) = None
  /\ forallb (other_project "Atlas") [] = true
  /\ sync_to_sheets (calm 200) (demo "Atlas" "Launch") true atlas_world
     = (Returns (true, "Successfully updated in Google Sheets"),
        set_sheet [sheet_values (calm 200) (demo "Atlas" "Launch") true]
                  atlas_world).
Proof.
  split; [reflexivity|]; split; [reflexivity|].
  exact (proj1 (sync_to_sheets_replaces_row
                  (calm 200) (demo "Atlas" "Launch") atlas_world [] []
                  (tl (sheet_values (calm 100) (demo "Atlas" "Idea") false))
                  eq_refl eq_refl eq_refl eq_refl eq_refl)).
Defined.

(** ** Deleting *)

Lemma filter_twice (f : ProjectRow.t -> bool) (rows : list ProjectRow.t) :
  filter f (filter f rows) = filter f rows.
Proof.
  induction rows as [|r rows IH]; simpl; [reflexivity|].
  destruct (f r) eqn:E; simpl; [now rewrite E, IH | assumption].
Qed.

(** X4: whatever the mirror does, after [delete_project] the listing has
    no record of that name, the rows of other names are all still listed,
    and deleting the same name again leaves the table as it is. *)
Theorem delete_project_then_again (e e' : env) (name : string) (w : world) :
  let w1 := snd (delete_project e name w) in
  let w2 := snd (delete_project e' name w1) in
  ~ In name (names (get_all_projects w1))
  /\ (forall r, In r (db w) -> ProjectRow.project_name r <> name ->
                In r (get_all_projects w1))
  /\ db w2 = db w1
  /\ get_all_projects w2 = get_all_projects w1.
Proof.
  intros w1 w2.
  destruct (delete_project_returns e name w)
    as (flag & msg & w1' & Hres & Hdb & _).
  destruct (delete_project_returns e' name w1)
    as (flag' & msg' & w2' & Hres' & Hdb' & _).
  assert (H1 : w1 = w1') by (unfold w1; now rewrite Hres).
  assert (H2 : w2 = w2') by (unfold w2; now rewrite Hres').
  rewrite <- H1 in Hdb; rewrite <- H2 in Hdb'.
  assert (Hsame : db w2 = db w1).
  { now rewrite Hdb', Hdb, filter_twice. }
  split; [|split; [|split]].
  - unfold names; rewrite in_map_iff; intros (r & Hr & Hin).
    apply (Permutation_in _ (get_all_projects_listing w1)) in Hin.
    rewrite Hdb in Hin; apply filter_In in Hin as [_ Hin].
    apply has_name_true in Hr; now rewrite Hr in Hin.
  - intros r Hin Hname.
    apply (Permutation_in _ (Permutation_sym (get_all_projects_listing w1))).
    rewrite Hdb; apply filter_In; split; [assumption|].
    apply negb_true_iff; destruct (has_name name r) eqn:E; [|reflexivity].
    now apply has_name_true in E.
  - exact Hsame.
  - unfold get_all_projects; now rewrite Hsame.
Qed.

Lemma delete_project_then_again_witness :
  In (new_row (calm 100) 1 (demo "Atlas" "Idea")) (db atlas_world)
  /\ ~ In "Atlas"
       (names (get_all_projects
                 (snd (delete_project (mirror_down 200) "Atlas" atlas_world))))
  /\ In (new_row (calm 100) 1 (demo "Atlas" "Idea"))
        (get_all_projects
           (snd (delete_project (calm 200) "Borealis" atlas_world))).
Proof.
  assert (Hin : In (new_row (calm 100) 1 (demo "Atlas" "Idea"))
                   (db atlas_world)) by (now left).
  split; [exact Hin|]; split.
  - exact (proj1 (delete_project_then_again
                    (mirror_down 200) (calm 300) "Atlas" atlas_world)).
  - apply (proj1 (proj2 (delete_project_then_again
                           (calm 200) (calm 300) "Borealis" atlas_world)));
      [exact Hin | discriminate].
Defined.

Lemma other_project_not_first (name : string) (rows : list sheet_row) :
  forallb (other_project name) rows = true ->
  existsb (first_cell_is name) rows = false.
Proof.
  induction rows as [|row rows IH]; simpl; [reflexivity|].
  rewrite andb_true_iff; intros [Hrow Hrows].
  rewrite (IH Hrows), orb_false_r.
  destruct row as [|cell rest]; [discriminate|].
  now apply negb_true_iff in Hrow.
Qed.

Lemma trim_rows_app (name : string) (pre rest : list sheet_row) :
  forallb (other_project name) pre = true ->
  trim_rows (pre ++ rest) = (pre ++ trim_rows rest)%list.
Proof.
  induction pre as [|row pre IH]; simpl; [reflexivity|].
  rewrite andb_true_iff; intros [Hrow Hpre].
  fold (trim_rows (pre ++ rest)); rewrite (IH Hpre).
  destruct row; [discriminate | reflexivity].
Qed.

Lemma scan_rows_after_clear (name : string) (pre post : list sheet_row) :
  forallb (other_project name) pre = true ->
  forall idx,
    scan_rows (trim_rows (pre ++ [] :: post)) idx name = Returns None
    \/ exists x, scan_rows (trim_rows (pre ++ [] :: post)) idx name = Raises x.
Proof.
  intros Hpre idx; rewrite (trim_rows_app name) by assumption.
  simpl; fold (trim_rows post).
  destruct (trim_rows post) as [|row rest].
  - left; rewrite app_nil_r; now apply scan_rows_none.
  - right; eexists; apply scan_rows_blank.
    now apply other_project_not_first.
Qed.

(** X5: when the mirror works and the project's row is the first of its
    name with no empty row above, [delete_project] removes the table row
    and blanks that sheet row (an empty row at the very end of the sheet
    reads as no row).  From then on [find_row_in_sheets] finds nothing
    under that name, whatever the rows below hold. *)
Theorem delete_project_clears_row (e e' : env) (name : string) (w : world)
        (pre post : list sheet_row) (cells : list string) :
  service_error e = None ->
  get_error e = None ->
  clear_error e = None ->
  sheet w = (pre ++ (name :: cells) :: post)%list ->
  forallb (other_project name) pre = true ->
  delete_project e name w
  = (Returns (true,
              "Project successfully deleted from database and Google Sheets"),
     set_sheet (trim_rows (pre ++ [] :: post))
               (set_db (filter (fun r => negb (has_name name r)) (db w)) w))
  /\ fst (find_row_in_sheets e' name (snd (delete_project e name w)))
     = Returns None.
Proof.
  intros Hs Hg Hc Hsheet Hpre.
  assert (Hscan : scan_rows (sheet w) 0 name
                  = Returns (Some (List.length pre + 2)%nat)).
  { rewrite Hsheet; now apply scan_rows_found. }
  assert (Hres : delete_project e name w
                 = (Returns
                      (true,
                       "Project successfully deleted from database and Google Sheets"),
                    set_sheet (trim_rows (pre ++ [] :: post))
                              (set_db (filter (fun r => negb (has_name name r))
                                              (db w)) w))).
  { unfold_app; rewrite Hs, Hg; simpl.
    rewrite Hscan; simpl.
    replace (List.length pre + 2)%nat with (S (S (List.length pre))) by lia.
    simpl; rewrite Hc; simpl.
    rewrite Nat.sub_0_r, Hsheet, set_row_app.
    replace (List.length pre <? List.length (pre ++ (name :: cells) :: post))%nat
      with true; [reflexivity|].
    symmetry; apply Nat.ltb_lt; rewrite List.length_app; simpl; lia. }
  split; [exact Hres|].
  rewrite Hres; unfold_app; simpl.
  destruct (get_error e'); simpl; [reflexivity|].
  destruct (scan_rows_after_clear name pre post Hpre 0) as [H | [x H]];
    now rewrite H.
Qed.

Lemma delete_project_clears_row_witness :
  forallb (other_project "Atlas") [] = true
  /\ sheet (snd (delete_project (calm 200) "Atlas" atlas_world)) = []
  /\ fst (find_row_in_sheets
            (calm 300) "Atlas"
            (snd (delete_project (calm 200) "Atlas" atlas_world)))
     = Returns None.
Proof.
  destruct (delete_project_clears_row
              (calm 200) (calm 300) "Atlas" atlas_world [] []
              (tl (sheet_values (calm 100) (demo "Atlas" "Idea") false))
              eq_refl eq_refl eq_refl eq_refl eq_refl) as [Hres Hfind].
  split; [reflexivity|]; split; [|exact Hfind].
  rewrite Hres; reflexivity.
Defined.

(** ** Start-up and ids *)








(** ** The mirror follows the store *)

Lemma mirrored_rows (name : string) (rows : list sheet_row) :
  forall ns,
    map first_cell rows = map Some ns ->
    (In name ns ->
     exists pre cells post,
       rows = (pre ++ (name :: cells) :: post)%list
       /\ forallb (other_project name) pre = true)
    /\ (~ In name ns -> forallb (other_project name) rows = true).
Proof.
  induction rows as [|row rows IH]; intros [|n ns] Hmap; try discriminate.
  - split; [intros [] | reflexivity].
  - simpl in Hmap; injection Hmap as Hrow Hrest.
    destruct row as [|cell cells]; [discriminate|].
    injection Hrow as ->.
    destruct (IH ns Hrest) as [Hin Hout].
    destruct (String.eqb n name) eqn:E.
    + apply String.eqb_eq in E as ->; split.
      * intros _; now exists [], cells, rows.
      * intros H; exfalso; apply H; now left.
    + assert (Hne : n <> name) by (now apply String.eqb_neq).
      split.
      * intros [-> | H]; [contradiction|].
        destruct (Hin H) as (pre & cs & post & -> & Hpre).
        exists ((n :: cells) :: pre), cs, post; split; [reflexivity|].
        simpl; now rewrite E, Hpre.
      * intros H; simpl; rewrite E; simpl.
        apply Hout; intros H'; apply H; now right.
Qed.

Lemma sync_to_sheets_absent (e : env) (p : project_data) (w : world) :
  service_error e = None ->
  get_error e = None ->
  forallb (other_project (project_name p)) (sheet w) = true ->
  sync_to_sheets e p true w
  = (Returns (false, "Project not found in Google Sheets"), w).
Proof.
  intros Hs Hg Hrows.
  unfold_app; rewrite Hs, Hg; simpl.
  now rewrite scan_rows_none.
Qed.

Lemma add_project_fresh (e : env) (p : project_data) (w : world) :
  ~ In (project_name p) (names (db w)) ->
  service_error e = None ->
  append_error e = None ->
  add_project e p w
  = (Returns (true,
              "Project successfully registered and synced to Google Sheets!"),
     {| db := (db w ++ [new_row e (seq_id w + 1) p])%list;
        seq_id := seq_id w + 1;
        sheet := (sheet w ++ [sheet_values e p false])%list;
        out := out w |}).
Proof.
  intros Hfresh Hs Ha.
  apply existsb_has_name_false in Hfresh.
  unfold_app; rewrite Hfresh, Hs, Ha; reflexivity.
Qed.

Lemma sync_to_sheets_found (e : env) (p : project_data) (w : world)
      (pre post : list sheet_row) (cells : list string) :
  service_error e = None ->
  get_error e = None ->
  update_error e = None ->
  sheet w = (pre ++ (project_name p :: cells) :: post)%list ->
  forallb (other_project (project_name p)) pre = true ->
  sync_to_sheets e p true w
  = (Returns (true, "Successfully updated in Google Sheets"),
     set_sheet (pre ++ sheet_values e p true :: post)%list w).
Proof.
  intros Hs Hg Hu Hsheet Hpre.
  assert (Hscan : scan_rows (sheet w) 0 (project_name p)
                  = Returns (Some (List.length pre + 2)%nat)).
  { rewrite Hsheet; now apply scan_rows_found. }
  unfold_app; rewrite Hs, Hg; simpl.
  rewrite Hscan; simpl.
  replace (List.length pre + 2)%nat with (S (S (List.length pre))) by lia.
  simpl; rewrite Hu; simpl.
  now rewrite Nat.sub_0_r, Hsheet, set_row_app.
Qed.

(** X8: while the mirror works, [add_project] and [update_project] keep
    the sheet in step with the table: one sheet row per table row, in the
    same order and under the same name; and the edit of a registered
    project then reports that it was updated and synced. *)
Theorem mirror_follows_store (e : env) (p : project_data) (w : world) :
  mirrored w ->
  service_error e = None ->
  get_error e = None ->
  append_error e = None ->
  update_error e = None ->
  mirrored (snd (add_project e p w))
  /\ mirrored (snd (update_project e p w))
  /\ (In (project_name p) (names (db w)) ->
      fst (update_project e p w)
      = Returns (true,
                 "Project successfully updated and synced to Google Sheets!")).
Proof.
  intros Hm Hs Hg Ha Hu.
  assert (Hnames : names (map (fun r => if has_name (project_name p) r
                                        then updated_row e p r else r) (db w))
                   = names (db w)).
  { apply names_of_identity, names_update. }
  destruct (mirrored_rows (project_name p) (sheet w) _ Hm) as [Hin Hout].
  split; [|split].
  - destruct (in_dec string_dec (project_name p) (names (db w))) as [H | H].
    + destruct (add_project_returns e p w)
        as (flag & msg & w' & -> & [(_ & -> & _) | (_ & Hfresh & _)]);
        [assumption | contradiction].
    + rewrite (add_project_fresh e p w H Hs Ha).
      unfold mirrored, names in *; simpl.
      now rewrite !map_app, Hm.
  - unfold update_project, try_except, bind, sql_update, ret.
    destruct (in_dec string_dec (project_name p) (names (db w))) as [H | H].
    + destruct (Hin H) as (pre & cells & post & Hsheet & Hpre).
      rewrite (sync_to_sheets_found
                 e p (set_db _ w) pre post cells Hs Hg Hu Hsheet Hpre).
      unfold mirrored; simpl; rewrite Hnames, <- Hm, Hsheet.
      now rewrite !map_app.
    + rewrite sync_to_sheets_absent by (try assumption; now apply Hout).
      unfold mirrored; simpl; now rewrite Hnames.
  - intros H.
    destruct (Hin H) as (pre & cells & post & Hsheet & Hpre).
    unfold update_project, try_except, bind, sql_update, ret.
    now rewrite (sync_to_sheets_found
                   e p (set_db _ w) pre post cells Hs Hg Hu Hsheet Hpre).
Qed.

Lemma mirror_follows_store_witness :
  mirrored atlas_world
  /\ service_error (calm 200) = None
  /\ mirrored (snd (add_project (calm 200) (demo "Borealis" "MVP")
                                atlas_world))
  /\ fst (update_project (calm 200) (demo "Atlas" "Launch") atlas_world)
     = Returns (true,
                "Project successfully updated and synced to Google Sheets!").
Proof.
  assert (Hm : mirrored atlas_world) by reflexivity.
  split; [exact Hm|]; split; [reflexivity|].
  split.
  - exact (proj1 (mirror_follows_store
                    (calm 200) (demo "Borealis" "MVP") atlas_world
                    Hm eq_refl eq_refl eq_refl eq_refl)).
  - apply (proj2 (proj2 (mirror_follows_store
                           (calm 200) (demo "Atlas" "Launch") atlas_world
                           Hm eq_refl eq_refl eq_refl eq_refl))).
    now left.
Defined.

(** ** Counting the words of a description *)

Lemma split_from_blank (s rest : string) :
  blank s = true ->
  split_from None (s ++ rest) = split_from None rest
  /\ forall w, s <> "" ->
               split_from (Some w) (s ++ rest) = w :: split_from None rest.
Proof.
  induction s as [|c s IH]; simpl; intros Hs.
  - split; [reflexivity | intros w H; contradiction].
  - apply andb_true_iff in Hs as [Hc Hs]; rewrite Hc.
    destruct (IH Hs) as [IH1 IH2].
    split; [exact IH1|].
    intros w _; now rewrite IH1.
Qed.

Lemma split_from_word (w rest : string) :
  all_chars (fun c => negb (is_space c)) w = true ->
  forall acc,
    split_from (Some acc) (w ++ rest) = split_from (Some (acc ++ w)) rest.
Proof.
  induction w as [|c w IH]; simpl; intros Hw acc.
  - now rewrite append_nil_r.
  - apply andb_true_iff in Hw as [Hc Hw].
    apply negb_true_iff in Hc; rewrite Hc, IH by assumption.
    now rewrite append_assoc.
Qed.

Lemma split_from_first_word (w rest : string) :
  is_word w = true ->
  split_from None (w ++ rest) = split_from (Some w) rest.
Proof.
  unfold is_word; rewrite andb_true_iff; intros [Hne Hw].
  destruct w as [|c w]; [discriminate|].
  simpl in *; apply andb_true_iff in Hw as [Hc Hw].
  apply negb_true_iff in Hc; rewrite Hc.
  now rewrite split_from_word.
Qed.

Lemma split_concat (ws : list string) :
  forallb is_word ws = true -> split (String.concat " " ws) = ws.
Proof.
  unfold split; induction ws as [|w ws IH]; [reflexivity|].
  cbn [forallb]; rewrite andb_true_iff; intros [Hw Hws].
  destruct ws as [|w' ws].
  - cbn [String.concat]; rewrite <- (append_nil_r w) at 1.
    now rewrite split_from_first_word.
  - change (String.concat " " (w :: w' :: ws))
      with (w ++ String " " (String.concat " " (w' :: ws))).
    rewrite split_from_first_word by assumption.
    cbn [split_from].
    change (is_space " ") with true; cbv iota.
    now rewrite IH.
Qed.

Lemma split_from_gap (a sp b : string) :
  blank sp = true -> sp <> "" ->
  forall st, split_from st (a ++ sp ++ b) = split_from st (a ++ " " ++ b).
Proof.
  intros Hsp Hne; induction a as [|c a IH]; intros st.
  - destruct (split_from_blank sp b Hsp) as [H1 H2].
    simpl; destruct st as [w|]; [now rewrite H2 | exact H1].
  - simpl; destruct (is_space c); [destruct st|]; now rewrite ?IH.
Qed.

Lemma split_from_trail (a sp : string) :
  blank sp = true ->
  forall st, split_from st (a ++ sp) = split_from st a.
Proof.
  intros Hsp; induction a as [|c a IH]; intros st.
  - simpl; destruct (split_from_blank sp "" Hsp) as [H1 H2].
    rewrite append_nil_r in H1, H2.
    destruct st as [w|]; [|exact H1].
    destruct sp as [|c sp]; [reflexivity|].
    now rewrite H2.
  - simpl; destruct (is_space c); [destruct st|]; now rewrite ?IH.
Qed.

(** X9: [split] gives back the words of a text whose words are joined by
    single spaces; a longer run of white space between two words counts as
    one space, and white space at either end counts for nothing.  So
    [validate_description] accepts such a text exactly when it has at most
    100 words. *)
Theorem validate_description_counts_words :
  (forall ws,
      forallb is_word ws = true ->
      split (String.concat " " ws) = ws
      /\ validate_description (String.concat " " ws)
         = (List.length ws <=? 100)%nat)
  /\ (forall a sp b,
         blank sp = true -> sp <> "" ->
         split (a ++ sp ++ b) = split (a ++ " " ++ b))
  /\ (forall a sp,
         blank sp = true ->
         split (sp ++ a) = split a /\ split (a ++ sp) = split a).
Proof.
  split; [|split].
  - intros ws Hws; unfold validate_description.
    now rewrite split_concat.
  - intros a sp b Hsp Hne; now apply split_from_gap.
  - intros a sp Hsp; split.
    + apply (split_from_blank sp a Hsp).
    + now apply split_from_trail.
Qed.

Lemma validate_description_counts_words_witness :
  forallb is_word ["retrieval"; "over"; "guild"; "documents"] = true
  /\ split "retrieval over guild documents"
     = ["retrieval"; "over"; "guild"; "documents"]
  /\ validate_description "retrieval over guild documents" = true
  /\ split ("retrieval" ++ String newline " " ++ "over")
     = split "retrieval over".
Proof.
  destruct validate_description_counts_words as (Hjoin & Hgap & _).
  destruct (Hjoin ["retrieval"; "over"; "guild"; "documents"] eq_refl)
    as [Hsplit Hvalid].
  split; [reflexivity|]; split; [exact Hsplit|]; split; [exact Hvalid|].
  apply (Hgap "retrieval" (String newline " ") "over");
    [reflexivity | discriminate].
Defined.

(** ** Searching the listing *)

Lemma starts_with_true (q s : string) :
  starts_with q s = true <-> exists after, s = q ++ after.
Proof.
  revert s; induction q as [|a q IH]; intros s; simpl.
  - split; [intros _; now exists s | reflexivity].
  - destruct s as [|b s].
    + split; [discriminate | intros [after H]; discriminate].
    + rewrite andb_true_iff, Ascii.eqb_eq, IH; split.
      * intros [-> [after ->]]; now exists after.
      * intros [after H]; injection H as -> ->; split; [reflexivity|].
        now exists after.
Qed.

Lemma contains_true (q s : string) : contains q s = true <-> mentions q s.
Proof.
  unfold mentions; induction s as [|b s IH]; simpl.
  - rewrite orb_false_r, starts_with_true; split.
    + intros [after H]; now exists "", after.
    + intros (before & after & H).
      destruct before; [now exists after | discriminate].
  - rewrite orb_true_iff, starts_with_true, IH; split.
    + intros [[after H] | (before & after & ->)].
      * now exists "", after.
      * now exists (String b before), after.
    + intros (before & after & H).
      destruct before as [|c before].
      * left; now exists after.
      * right; injection H as -> ->; now exists before, after.
Qed.

Lemma lower_app (a b : string) : lower (a ++ b) = lower a ++ lower b.
Proof. induction a as [|c a IH]; simpl; [reflexivity | now rewrite IH]. Qed.

Lemma search_hit_true (q : string) (r : ProjectRow.t) :
  search_hit q r = true
  <-> mentions q (lower (ProjectRow.project_name r))
      \/ mentions q (lower (ProjectRow.one_liner r))
      \/ mentions q (lower (ProjectRow.description r))
      \/ mentions q (lower (ProjectRow.lead_name r)).
Proof.
  unfold search_hit; rewrite !orb_true_iff, !contains_true; tauto.
Qed.

Lemma sorted_filter (f : ProjectRow.t -> bool) (l : list ProjectRow.t) :
  StronglySorted newer_first l -> StronglySorted newer_first (filter f l).
Proof.
  induction 1 as [|h t Hs IH Hh]; simpl; [constructor|].
  destruct (f h); [|assumption].
  constructor; [assumption|].
  rewrite Forall_forall in *; intros x Hx.
  apply filter_In in Hx as [Hx _]; now apply Hh.
Qed.

Lemma get_all_projects_sorted (w : world) :
  StronglySorted newer_first (get_all_projects w).
Proof.
  unfold get_all_projects.
  induction (db w) as [|r l IH]; simpl; [constructor|].
  now apply insert_desc_sorted.
Qed.

Lemma search_projects_hit (query : string) (projects : list ProjectRow.t)
      (r : ProjectRow.t) :
  In r (search_projects query projects)
  <-> In r projects
      /\ (mentions (lower query) (lower (ProjectRow.project_name r))
          \/ mentions (lower query) (lower (ProjectRow.one_liner r))
          \/ mentions (lower query) (lower (ProjectRow.description r))
          \/ mentions (lower query) (lower (ProjectRow.lead_name r))).
Proof.
  unfold search_projects; now rewrite filter_In, search_hit_true.
Qed.

(** X10: [search_projects] returns exactly the projects of the list in
    which the lower-cased query occurs in the lower-cased name, one-liner,
    description or lead name; the AI usage, the contact and the status are
    not searched.  The empty query returns the whole list, and the result
    of searching the listing is still ordered newest first. *)
Theorem search_projects_finds (query : string) (projects : list ProjectRow.t) :
  (forall r,
      In r (search_projects query projects)
      <-> In r projects
          /\ (mentions (lower query) (lower (ProjectRow.project_name r))
              \/ mentions (lower query) (lower (ProjectRow.one_liner r))
              \/ mentions (lower query) (lower (ProjectRow.description r))
              \/ mentions (lower query) (lower (ProjectRow.lead_name r))))
  /\ search_projects "" projects = projects
  /\ (forall w, StronglySorted newer_first
                  (search_projects query (get_all_projects w))).
Proof.
  split; [|split].
  - intros r; apply search_projects_hit.
  - unfold search_projects; simpl.
    induction projects as [|r rows IH]; simpl; [reflexivity|].
    unfold search_hit at 1; destruct (lower (ProjectRow.project_name r)); simpl;
      now rewrite IH.
  - intros w; apply sorted_filter, get_all_projects_sorted.
Qed.

(** X11: the search does not tell letter case apart: two queries that
    differ only in letter case return the same projects, and a project of
    the list is found by any piece of its name, typed in any case. *)
Theorem search_projects_ignores_case (projects : list ProjectRow.t) :
  (forall q1 q2,
      differ_only_in_case q1 q2 = true ->
      search_projects q1 projects = search_projects q2 projects)
  /\ (forall r query piece,
         In r projects ->
         mentions piece (ProjectRow.project_name r) ->
         differ_only_in_case query piece = true ->
         In r (search_projects query projects)).
Proof.
  split.
  - intros q1 q2 Hcase; unfold search_projects.
    now rewrite (differ_only_in_case_lower _ _ Hcase).
  - intros r query piece Hin (before & after & Hname) Hcase.
    apply search_projects_hit; split; [assumption|].
    left; rewrite (differ_only_in_case_lower _ _ Hcase), Hname, !lower_app.
    now exists (lower before), (lower after).
Qed.

Lemma search_projects_ignores_case_witness :
  differ_only_in_case "ATLAS" "atlas" = true
  /\ search_projects "ATLAS" (get_all_projects atlas_world)
     = search_projects "atlas" (get_all_projects atlas_world)
  /\ In (new_row (calm 100) 1 (demo "Atlas" "Idea"))
        (search_projects "TLA" (get_all_projects atlas_world)).
Proof.
  destruct (search_projects_ignores_case (get_all_projects atlas_world))
    as [Hsame Hfound].
  split; [reflexivity|]; split; [now apply Hsame|].
  apply (Hfound _ "TLA" "tla"); [now left | now exists "A", "s" | reflexivity].
Defined.

Lemma search_projects_finds_witness :
  In (new_row (calm 100) 1 (demo "Atlas" "Idea"))
     (search_projects "ADA" (get_all_projects atlas_world))
  /\ search_projects "handbook" (get_all_projects atlas_world)
     = get_all_projects atlas_world.
Proof.
  split.
  - apply (proj1 (search_projects_finds "ADA" (get_all_projects atlas_world))).
    split; [now left|].
    right; right; right; now exists "", "".
  - reflexivity.
Defined.

(** ** The session of the access gate *)

(** X12: a check that succeeds leaves the session authenticated, and from
    then on every check succeeds, whatever is typed and whether or not
    Login is pressed, and shows no error; a check that fails leaves the
    session not authenticated. *)
Theorem check_password_session_sticks (U P : string) (ss : session_state)
        (username password : string) (login : bool) :
  let r := check_password U P ss username password login in
  (fst (fst r) = true ->
   password_correct (snd (fst r)) = Some true
   /\ forall username' password' login',
       check_password U P (snd (fst r)) username' password' login'
       = (true, snd (fst r), []))
  /\ (fst (fst r) = false -> password_correct (snd (fst r)) = Some false).
Proof.
  unfold check_password.
  destruct ss as [[[|]|]]; simpl;
    destruct login; simpl;
    try destruct (credentials_match U P username password); simpl;
    split; intros H; try discriminate; try reflexivity;
    split; reflexivity.
Qed.

Lemma check_password_session_sticks_witness :
  fst (fst (check_password
              "admin"
              "ba7816bf8f01cfea414140de5dae2223b00361a396177a9cb410ff61f20015ad"
              {| password_correct := None |} "Admin" "abc" true)) = true
  /\ check_password
       "admin"
       "ba7816bf8f01cfea414140de5dae2223b00361a396177a9cb410ff61f20015ad"
       {| password_correct := Some true |} "" "" false
     = (true, {| password_correct := Some true |}, []).
Proof.
  assert (Hok : fst (fst (check_password
                            "admin"
                            "ba7816bf8f01cfea414140de5dae2223b00361a396177a9cb410ff61f20015ad"
                            {| password_correct := None |} "Admin" "abc"
                            true)) = true).
  { vm_compute; reflexivity. }
  split; [exact Hok|].
  destruct (check_password_session_sticks
              "admin"
              "ba7816bf8f01cfea414140de5dae2223b00361a396177a9cb410ff61f20015ad"
              {| password_correct := None |} "Admin" "abc" true)
    as [Hstick _].
  destruct (Hstick Hok) as [_ Hlater].
  exact (Hlater "" "" false).
Defined.

(** ** Secrets that lock the gate *)

Lemma lower_char_not_upper (c : ascii) : is_upper (lower_char c) = false.
Proof. destruct c as [[] [] [] [] [] [] [] []]; reflexivity. Qed.

Lemma lower_has_no_upper (s : string) : has_upper (lower s) = false.
Proof.
  unfold has_upper; apply negb_false_iff.
  induction s as [|c s IH]; simpl; [reflexivity|].
  now rewrite lower_char_not_upper, IH.
Qed.

Lemma compress_length (h block : list N) :
  List.length h = 8%nat -> List.length (Sha256.compress h block) = 8%nat.
Proof.
  intros Hh; unfold Sha256.compress.
  now rewrite length_map, length_combine, Hh.
Qed.

Lemma digest_length (msg : list N) :
  List.length (Sha256.digest msg) = 8%nat.
Proof.
  unfold Sha256.digest.
  generalize (Sha256.blocks
                (List.length (Sha256.words (Sha256.pad msg)) / 16)
                (Sha256.words (Sha256.pad msg))).
  assert (H0 : List.length Sha256.H0 = 8%nat) by (vm_compute; reflexivity).
  revert H0; generalize Sha256.H0.
  intros h Hh l; revert h Hh.
  induction l as [|b l IH]; intros h Hh; simpl; [assumption|].
  now apply IH, compress_length.
Qed.

Lemma hex_digit_is_hex (n : N) :
  (n < 16)%N -> is_hex (Sha256.hex_digit n) = true.
Proof.
  intros Hn.
  assert (H : In n [0; 1; 2; 3; 4; 5; 6; 7; 8; 9; 10; 11; 12; 13; 14; 15]%N).
  { simpl; lia. }
  simpl in H; repeat (destruct H as [<- | H]; [reflexivity|]); contradiction.
Qed.

Lemma hex_word_shape (w : N) :
  String.length (Sha256.hex_word w) = 8%nat
  /\ all_chars is_hex (Sha256.hex_word w) = true.
Proof.
  split; [reflexivity|].
  unfold Sha256.hex_word; cbn [seq rev app fold_right all_chars].
  rewrite !hex_digit_is_hex; [reflexivity|..];
    apply N.mod_lt; discriminate.
Qed.

Lemma hexdigest_shape (msg : list N) :
  String.length (Sha256.hexdigest msg) = 64%nat
  /\ all_chars is_hex (Sha256.hexdigest msg) = true.
Proof.
  unfold Sha256.hexdigest.
  pose proof (digest_length msg) as Hlen.
  assert (H : forall ws,
             String.length
               (fold_right (fun w s => Sha256.hex_word w ++ s) "" ws)
             = (8 * List.length ws)%nat
             /\ all_chars is_hex
                  (fold_right (fun w s => Sha256.hex_word w ++ s) "" ws)
                = true).
  { induction ws as [|w ws [IH1 IH2]]; [split; reflexivity|].
    cbn [fold_right]; rewrite length_app, all_chars_app, IH1, IH2.
    destruct (hex_word_shape w) as [-> ->]; split; [simpl; lia | reflexivity]. }
  destruct (H (Sha256.digest msg)) as [H1 H2].
  now rewrite H1, H2, Hlen.
Qed.

(** X13: the gate can only open when the secrets have the form that the
    check produces.  If the configured user name has an upper-case letter,
    or the configured password is not 64 characters of [0-9a-f] (a plain
    password, an upper-case digest), then no user name and no password
    pass the check: nobody who is not yet authenticated gets in. *)
Theorem check_password_locked_out (U P : string) (ss : session_state)
        (username password : string) (login : bool) :
  has_upper U = true \/ String.length P <> 64%nat
  \/ all_chars is_hex P = false ->
  password_correct ss <> Some true ->
  fst (fst (check_password U P ss username password login)) = false.
Proof.
  intros Hbad Hss.
  assert (Hno : credentials_match U P username password = false).
  { destruct (credentials_match U P username password) eqn:E; [|reflexivity].
    apply credentials_match_true in E as [<- <-]; exfalso.
    destruct (hexdigest_shape (encode password)) as [Hlen Hhex].
    destruct Hbad as [H | [H | H]].
    - rewrite lower_has_no_upper in H; discriminate.
    - contradiction.
    - congruence. }
  unfold check_password.
  destruct ss as [[[|]|]]; simpl in *; try congruence;
    rewrite Hno; now destruct login.
Qed.

Lemma check_password_locked_out_witness :
  (has_upper "Admin" = true \/ String.length "abc" <> 64%nat
   \/ all_chars is_hex "abc" = false)
  /\ password_correct {| password_correct := None |} <> Some true
  /\ fst (fst (check_password "Admin" "abc" {| password_correct := None |}
                              "Admin" "abc" true)) = false.
Proof.
  assert (Hbad : has_upper "Admin" = true \/ String.length "abc" <> 64%nat
                 \/ all_chars is_hex "abc" = false) by (now left).
  assert (Hss : password_correct {| password_correct := None |} <> Some true)
    by discriminate.
  split; [exact Hbad|]; split; [exact Hss|].
  exact (check_password_locked_out "Admin" "abc" _ "Admin" "abc" true
                                   Hbad Hss).
Defined.

(** ** The dashboard counts *)

Lemma valid_statusb_true (s : string) :
  valid_statusb s = true <-> valid_status s.
Proof.
  unfold valid_statusb, valid_status; rewrite existsb_exists; split.
  - intros (x & Hin & Heq); apply String.eqb_eq in Heq; now subst.
  - intros H; exists s; split; [assumption | apply String.eqb_refl].
Qed.

Lemma count_status_sum (projects : list ProjectRow.t) :
  (count_status "Idea" projects + count_status "MVP" projects
   + count_status "Launch" projects
   = List.length (filter (fun p => valid_statusb (ProjectRow.status p)) projects))%nat.
Proof.
  unfold count_status, valid_statusb, PROJECT_STATUSES; cbn [existsb].
  induction projects as [|p rows IH]; [reflexivity|].
  cbn [filter].
  destruct (String.eqb (ProjectRow.status p) "Idea") eqn:E1;
    destruct (String.eqb (ProjectRow.status p) "MVP") eqn:E2;
    destruct (String.eqb (ProjectRow.status p) "Launch") eqn:E3;
    try (apply String.eqb_eq in E1); try (apply String.eqb_eq in E2);
    try (apply String.eqb_eq in E3); try congruence;
    cbn [orb List.length]; lia.
Qed.

(** X20: on the dashboard the three stage counts never add up to more
    than the total, and they add up to the total exactly when every listed
    project has one of the three statuses; a project with any other status
    is counted in the total only. *)
Theorem metrics_add_up (projects : list ProjectRow.t) :
  let '(total, idea, mvp, launch) := metrics projects in
  (idea + mvp + launch <= total)%nat
  /\ ((idea + mvp + launch = total)%nat
      <-> Forall (fun p => valid_status (ProjectRow.status p)) projects).
Proof.
  unfold metrics; rewrite count_status_sum.
  induction projects as [|p rows [IH1 IH2]]; simpl.
  - split; [lia | split; [constructor | reflexivity]].
  - destruct (valid_statusb (ProjectRow.status p)) eqn:E; simpl.
    + split; [lia|].
      split.
      * intros H; constructor; [now apply valid_statusb_true|].
        apply IH2; lia.
      * intros H; apply Forall_inv_tail in H; apply IH2 in H; lia.
    + split; [lia|].
      split; [lia|].
      intros H; apply Forall_inv in H; apply valid_statusb_true in H.
      congruence.
Qed.

Lemma metrics_add_up_witness :
  metrics (get_all_projects atlas_world) = (1, 1, 0, 0)%nat
  /\ Forall (fun p => valid_status (ProjectRow.status p))
            (get_all_projects atlas_world).
Proof.
  split; [reflexivity|].
  pose proof (metrics_add_up (get_all_projects atlas_world)) as H.
  change (metrics (get_all_projects atlas_world)) with (1, 1, 0, 0)%nat in H.
  now apply (proj2 H).
Defined.

(** ** The registration form *)

Lemma stage_name_valid (s : stage) : valid_status (stage_name s).
Proof. destruct s; unfold valid_status; simpl; tauto. Qed.

Lemma register_form_rejects (e : env) (f : registration) (w : world) :
  reg_submitted f = true ->
  registration_valid f = false ->
  exists line, register_form e f w = (Returns None, logged line w).
Proof.
  unfold registration_valid, register_form; intros -> Hbad; simpl negb.
  cbv iota.
  destruct (forallb filled _); simpl;
    [|eexists; unfold bind, emit, ret, logged; reflexivity].
  destruct (validate_one_liner _); simpl;
    [|eexists; unfold bind, emit, ret, logged; reflexivity].
  destruct (validate_description _); simpl;
    [|eexists; unfold bind, emit, ret, logged; reflexivity].
  destruct (validate_whatsapp _); simpl;
    [discriminate | eexists; unfold bind, emit, ret, logged; reflexivity].
Qed.

Lemma register_form_accepts (e : env) (f : registration) (w : world) :
  reg_submitted f = true ->
  registration_valid f = true ->
  exists flag msg w1,
    add_project e (registration_data f) w = (Returns (flag, msg), w1)
    /\ register_form e f w
       = (Returns (Some (flag, msg)), if flag then w1 else logged msg w1).
Proof.
  unfold registration_valid, register_form; intros -> Hok; simpl negb.
  cbv iota.
  apply andb_true_iff in Hok as [Hok H4].
  apply andb_true_iff in Hok as [Hok H3].
  apply andb_true_iff in Hok as [H1 H2].
  rewrite H1, H2, H3, H4; simpl.
  destruct (add_project_returns e (registration_data f) w)
    as (flag & msg & w1 & Hres & _).
  exists flag, msg, w1; split; [exact Hres|].
  unfold bind; rewrite Hres.
  destruct flag; reflexivity.
Qed.

(** X14: the registration form writes nothing unless every check passes:
    a submission with an empty required field, a one-liner over 250
    characters, a description over 100 words or a contact that
    [validate_whatsapp] rejects only shows one error and leaves table,
    id counter and sheet as they were.  Every row that the form adds
    carries the submitted values, with all required fields filled, a
    valid contact, a one-liner and a description within their limits, and
    one of the three statuses. *)
Theorem register_form_stores_only_valid (e : env) (f : registration)
        (w : world) :
  (reg_submitted f = true ->
   registration_valid f = false ->
   exists line, register_form e f w = (Returns None, logged line w))
  /\ (forall r,
         In r (db (snd (register_form e f w))) ->
         In r (db w)
         \/ (r = new_row e (seq_id w + 1) (registration_data f)
             /\ registration_valid f = true
             /\ validate_whatsapp (ProjectRow.whatsapp_contact r) = true
             /\ (String.length (ProjectRow.one_liner r) <= 250)%nat
             /\ (List.length (split (ProjectRow.description r)) <= 100)%nat
             /\ valid_status (ProjectRow.status r)
             /\ ProjectRow.project_name r <> "")).
Proof.
  split; [apply register_form_rejects|].
  intros r Hin.
  destruct (reg_submitted f) eqn:Hsub;
    [|left; unfold register_form in Hin; now rewrite Hsub in Hin].
  destruct (registration_valid f) eqn:Hvalid.
  - destruct (register_form_accepts e f w Hsub Hvalid)
      as (flag & msg & w1 & Hadd & Hres).
    rewrite Hres in Hin; simpl in Hin.
    assert (Hin1 : In r (db w1)) by (now destruct flag).
    destruct (add_project_returns e (registration_data f) w)
      as (flag' & msg' & w1' & Hadd' & Hcases).
    rewrite Hadd in Hadd'; injection Hadd' as <- <- <-.
    destruct Hcases as [(_ & -> & _) | (_ & _ & Hdb & _)]; [now left|].
    rewrite Hdb in Hin1; apply in_app_or in Hin1 as [H | [<- | []]];
      [now left|].
    right; split; [reflexivity|]; split; [reflexivity|].
    unfold registration_valid in Hvalid.
    apply andb_true_iff in Hvalid as [Hvalid H4].
    apply andb_true_iff in Hvalid as [Hvalid H3].
    apply andb_true_iff in Hvalid as [H1 H2].
    simpl in H1; apply andb_true_iff in H1 as [H1 _].
    simpl; split; [exact H4|].
    split; [now apply Nat.leb_le|].
    split; [now apply Nat.leb_le|].
    split; [apply stage_name_valid|].
    intros Hname; unfold filled in H1; rewrite Hname in H1; discriminate.
  - destruct (register_form_rejects e f w Hsub Hvalid) as [line Hres].
    rewrite Hres in Hin; now left.
Qed.

Lemma register_form_stores_only_valid_witness :
  reg_submitted
    {| reg_project_name := "Borealis"; reg_one_liner := "Forecasts";
       reg_description := "Weather forecasts for field teams";
       reg_ai_usage := "Time series model"; reg_lead_name := "Bo";
       reg_whatsapp_contact := "0701 234 5678"; reg_status := MVP;
       reg_submitted := true |} = true
  /\ exists line,
      register_form
        (calm 200)
        {| reg_project_name := "Borealis"; reg_one_liner := "Forecasts";
           reg_description := "Weather forecasts for field teams";
           reg_ai_usage := "Time series model"; reg_lead_name := "Bo";
           reg_whatsapp_contact := "0701 234 5678"; reg_status := MVP;
           reg_submitted := true |} atlas_world
      = (Returns None, logged line atlas_world).
Proof.
  split; [reflexivity|].
  apply (proj1 (register_form_stores_only_valid (calm 200) _ atlas_world));
    reflexivity.
Defined.

(** ** The edit tab *)

Lemma emit_all_effect (lines : list string) (w : world) :
  emit_all lines w
  = (Returns tt,
     {| db := db w; seq_id := seq_id w; sheet := sheet w;
        out := (out w ++ lines)%list |}).
Proof.
  revert w; induction lines as [|line rest IH]; intros w; simpl.
  - unfold ret; rewrite app_nil_r; now destruct w.
  - unfold bind, emit; rewrite IH; simpl.
    now rewrite <- app_assoc.
Qed.

Lemma delete_dialog_effect (e : env) (name : string) (wd : edit_widgets)
      (w : world) :
  exists rerun w1,
    delete_dialog e name wd w = (Returns rerun, w1)
    /\ seq_id w1 = seq_id w
    /\ ((db w1 = db w /\ sheet w1 = sheet w
         /\ (delete_button wd && confirm_delete wd = false))
        \/ (delete_button wd = true /\ confirm_delete wd = true
            /\ db w1 = deleted name (db w))).
Proof.
  unfold delete_dialog.
  destruct (delete_button wd); [|exists false, w; now repeat split; left].
  destruct (confirm_delete wd).
  - destruct (delete_project_returns e name w)
      as (flag & msg & w1 & Hres & Hdb & Hseq & _).
    unfold bind; rewrite Hres.
    destruct flag; simpl.
    + exists true, w1; repeat split; [assumption | now right].
    + unfold emit, ret; simpl; eexists; eexists; split; [reflexivity|].
      split; [assumption | right; now repeat split].
  - unfold bind, ret; simpl.
    exists (cancel_delete wd), w; repeat split; left; now repeat split.
Qed.

Lemma edit_form_effect (e : env) (name : string) (wd : edit_widgets)
      (w : world) :
  exists w1,
    edit_form e name wd w = (Returns tt, w1)
    /\ seq_id w1 = seq_id w
    /\ ((db w1 = db w /\ sheet w1 = sheet w)
        \/ (edit_submitted wd = true /\ edit_valid wd = true
            /\ db w1 = edited e (edit_data name wd) (db w))).
Proof.
  unfold edit_form, edit_valid.
  destruct (edit_submitted wd); cbn [negb andb];
    [|exists w; repeat split; now left].
  match goal with
  | |- context [forallb filled ?l] => destruct (forallb filled l)
  end; cbn [negb andb];
    [|eexists; unfold emit; split; [reflexivity|]; split; [reflexivity|];
      now left].
  destruct (validate_whatsapp (edit_whatsapp_contact wd)); cbn [negb];
    [|eexists; unfold emit; split; [reflexivity|]; split; [reflexivity|];
      now left].
  destruct (update_project_returns e (edit_data name wd) w)
    as (msg & w1 & Hres & Hdb & Hseq).
  unfold bind; rewrite Hres; simpl.
  exists w1; unfold ret; repeat split; [assumption|].
  right; now repeat split.
Qed.

Lemma tab_effect_none (ok : bool) (e : env) (wd : edit_widgets)
      (w w1 : world) (fin : run_end) (ss' : session_state) :
  seq_id w1 = seq_id w -> db w1 = db w -> sheet w1 = sheet w ->
  (ok = false -> fin = Completed) ->
  (forall name,
      ok = true -> project_to_edit wd = Some name -> name <> "" ->
      db w <> [] -> delete_button wd && confirm_delete wd = false) ->
  tab_effect ok e wd w (Returns (fin, ss'), w1).
Proof.
  intros Hseq Hdb Hsheet Hfin Hdel.
  exists fin, ss', w1, false, false,
    (match project_to_edit wd with Some n => n | None => "" end).
  split; [reflexivity|]; split; [assumption|]; split; [assumption|].
  split; [discriminate|]; split; [discriminate|].
  split; [intros _ _; assumption|].
  split; [intros H; now repeat split; try apply Hfin|].
  split; [|intros n Hn; now rewrite Hn].
  intros Hok Hsel Hne Hrows Hd Hc; exfalso.
  pose proof (Hdel _ Hok Hsel Hne Hrows) as H.
  rewrite Hd, Hc in H; discriminate.
Qed.

Lemma edit_tab_effect (U P : string) (e : env) (ss : session_state)
      (wd : edit_widgets) (w : world) :
  tab_effect
    (fst (fst (check_password U P ss (username_input wd)
                              (password_input wd) (login_button wd))))
    e wd w (edit_tab U P e ss wd w).
Proof.
  unfold edit_tab.
  destruct (check_password U P ss (username_input wd) (password_input wd)
                           (login_button wd)) as [[ok ss'] shown].
  unfold bind at 1; rewrite emit_all_effect; cbn [fst].
  set (w0 := {| db := db w; seq_id := seq_id w; sheet := sheet w;
                out := (out w ++ shown)%list |}).
  destruct ok; cbn [negb]; cbv iota;
    [|apply tab_effect_none; try reflexivity; intros; discriminate].
  cbv beta zeta.
  destruct (get_all_projects w0) as [|r0 listing] eqn:Hlist.
  { apply tab_effect_none; try reflexivity; try discriminate.
    intros name _ _ _ Hrows; exfalso; apply Hrows.
    apply Permutation_nil; rewrite <- Hlist.
    exact (get_all_projects_listing w0). }
  destruct (project_to_edit wd) as [name|] eqn:Hsel.
  2:{ apply tab_effect_none; try reflexivity; try discriminate.
      intros n _ H; congruence. }
  destruct (filled name) eqn:Hfilled; cbn [negb]; cbv iota.
  2:{ apply tab_effect_none; try reflexivity; try discriminate.
      intros n _ Hn Hne; assert (n = name) as -> by congruence.
      unfold filled in Hfilled; apply negb_false_iff in Hfilled.
      now apply String.eqb_eq in Hfilled. }
  destruct (delete_dialog_effect e name wd w0)
    as (rerun & w1 & Hdlg & Hseq1 & Hcase1).
  unfold bind; rewrite Hdlg.
  assert (Hd : exists D : bool,
             db w1 = (if D then deleted name else fun rows => rows) (db w)
             /\ (D = true ->
                 delete_button wd = true /\ confirm_delete wd = true)
             /\ (D = false -> sheet w1 = sheet w)
             /\ (delete_button wd = true -> confirm_delete wd = true ->
                 D = true)).
  { destruct Hcase1 as [(H1 & H2 & H3) | (H1 & H2 & H3)].
    - exists false; split; [exact H1|]; split; [discriminate|].
      split; [intros _; exact H2|].
      intros Hb Hc; rewrite Hb, Hc in H3; discriminate.
    - exists true; split; [exact H3|]; split; [intros _; now split|].
      split; [discriminate | reflexivity]. }
  destruct Hd as (D & HdbD & HD & HsheetD & HDtrue).
  assert (Hstop : forall fin,
             tab_effect true e wd w (Returns (fin, ss'), w1)).
  { intros fin; exists fin, ss', w1, D, false, name.
    rewrite Hsel.
    split; [reflexivity|]; split; [exact Hseq1|]; split; [exact HdbD|].
    split; [intros H; now destruct (HD H)|].
    split; [discriminate|].
    split; [intros H _; now apply HsheetD|].
    split; [discriminate|].
    split; [intros _ _ _ _; exact HDtrue | congruence]. }
  destruct rerun; [apply Hstop|].
  destruct (find (has_name name) (r0 :: listing)) as [cur|]; [|apply Hstop].
  destruct (valid_statusb (ProjectRow.status cur)); cbn [negb]; cbv iota;
    [|apply Hstop].
  destruct (edit_form_effect e name wd w1) as (w2 & Hform & Hseq2 & Hcase2).
  rewrite Hform; unfold ret.
  destruct Hcase2 as [(H1 & H2) | (H1 & H2 & H3)].
  - exists Completed, ss', w2, D, false, name.
    rewrite Hsel.
    split; [reflexivity|]; split; [rewrite Hseq2; exact Hseq1|].
    split; [rewrite H1; exact HdbD|].
    split; [intros H; now destruct (HD H)|].
    split; [discriminate|].
    split; [intros H _; rewrite H2; now apply HsheetD|].
    split; [discriminate|].
    split; [intros _ _ _ _; exact HDtrue | congruence].
  - exists Completed, ss', w2, D, true, name.
    rewrite Hsel.
    split; [reflexivity|]; split; [rewrite Hseq2; exact Hseq1|].
    split; [now rewrite H3, HdbD|].
    split; [intros H; now destruct (HD H)|].
    split; [now intros _|].
    split; [discriminate|].
    split; [discriminate|].
    split; [intros _ _ _ _; exact HDtrue | congruence].
Qed.

Lemma names_edited (e : env) (p : project_data) (rows : list ProjectRow.t) :
  names (edited e p rows) = names rows.
Proof. apply names_of_identity, names_update. Qed.

Lemma names_deleted (name : string) (rows : list ProjectRow.t) :
  ~ In name (names (deleted name rows)).
Proof.
  unfold names, deleted; rewrite in_map_iff.
  intros (r & Hr & Hin); apply filter_In in Hin as [_ Hin].
  apply has_name_true in Hr; now rewrite Hr in Hin.
Qed.

Lemma rows_ok_deleted (name : string) (rows : list ProjectRow.t) :
  NoDup (names rows) /\ Forall row_ok rows ->
  NoDup (names (deleted name rows)) /\ Forall row_ok (deleted name rows).
Proof.
  intros [Hnd Hrows]; split; [now apply NoDup_names_filter|].
  rewrite Forall_forall in *; intros r Hr.
  apply filter_In in Hr as [Hr _]; now apply Hrows.
Qed.

Lemma rows_ok_edited (e : env) (p : project_data) (rows : list ProjectRow.t) :
  valid_status (status p) ->
  Forall (fun r => ProjectRow.date_added r <= CURRENT_TIMESTAMP e) rows ->
  NoDup (names rows) /\ Forall row_ok rows ->
  NoDup (names (edited e p rows)) /\ Forall row_ok (edited e p rows).
Proof.
  intros Hst Hclock [Hnd Hrows]; split; [now rewrite names_edited|].
  unfold edited; rewrite Forall_forall in *; intros r Hr.
  apply in_map_iff in Hr as (r1 & <- & Hr1).
  destruct (has_name (project_name p) r1); [|now apply Hrows].
  split; simpl; [assumption | now apply Hclock].
Qed.

(** X15: what goes through the forms keeps the invariants of the data
    model without any condition on the status, which the select box
    restricts to the three stages: the registration form always keeps
    them, and so does a run of the edit tab when the clock reading is not
    before the stored creation times. *)
Theorem forms_keep_invariants (U P : string) (e : env) (ss : session_state)
        (f : registration) (wd : edit_widgets) (w : world) :
  store_ok w ->
  store_ok (snd (register_form e f w))
  /\ (Forall (fun r => ProjectRow.date_added r <= CURRENT_TIMESTAMP e) (db w) ->
      store_ok (snd (edit_tab U P e ss wd w))).
Proof.
  intros [Hnd Hrows]; split.
  - destruct (reg_submitted f) eqn:Hsub;
      [|unfold register_form; rewrite Hsub; now split].
    destruct (registration_valid f) eqn:Hvalid.
    + destruct (register_form_accepts e f w Hsub Hvalid)
        as (flag & msg & w1 & Hadd & ->).
      assert (Hok : store_ok w1).
      { destruct (add_project_returns e (registration_data f) w)
          as (flag' & msg' & w1' & Hadd' & Hcases).
        rewrite Hadd in Hadd'; injection Hadd' as <- <- <-.
        destruct Hcases as [(_ & -> & _) | (_ & Hfresh & Hdb & _)];
          [now split|].
        unfold store_ok; rewrite Hdb; split.
        - now apply NoDup_names_snoc.
        - apply Forall_app; split; [assumption|].
          constructor; [|constructor].
          split; simpl; [apply stage_name_valid | lia]. }
      now destruct flag.
    + destruct (register_form_rejects e f w Hsub Hvalid) as [line ->].
      now split.
  - intros Hclock.
    destruct (edit_tab_effect U P e ss wd w)
      as (fin & ss' & w' & D & Uf & name & -> & _ & Hdb & _).
    unfold store_ok; simpl; rewrite Hdb.
    assert (H1 : NoDup (names ((if D then deleted name
                                else fun rows => rows) (db w)))
                 /\ Forall row_ok ((if D then deleted name
                                    else fun rows => rows) (db w))).
    { destruct D; [now apply rows_ok_deleted | now split]. }
    destruct Uf; [|exact H1].
    apply rows_ok_edited; [apply stage_name_valid | | exact H1].
    destruct D; [|exact Hclock].
    unfold deleted; rewrite Forall_forall in *; intros r Hr.
    apply filter_In in Hr as [Hr _]; now apply Hclock.
Qed.

(** X16: behind a closed gate the edit tab does nothing: in a session that
    is not authenticated, a run without Login pressed or with credentials
    that do not match ends at the log-in request, with the table, the id
    counter and the sheet as they were and the session still not
    authenticated, whatever the other widgets hold. *)
Theorem edit_tab_gate_closed (U P : string) (e : env) (ss : session_state)
        (wd : edit_widgets) (w : world) :
  password_correct ss <> Some true ->
  login_button wd = false
  \/ credentials_match U P (username_input wd) (password_input wd) = false ->
  exists ss' w',
    edit_tab U P e ss wd w = (Returns (Completed, ss'), w')
    /\ db w' = db w /\ seq_id w' = seq_id w /\ sheet w' = sheet w
    /\ password_correct ss' = Some false.
Proof.
  intros Hss Hclosed.
  assert (Hno : exists shown,
             check_password U P ss (username_input wd) (password_input wd)
                            (login_button wd)
             = (false, {| password_correct := Some false |}, shown)).
  { unfold check_password.
    destruct ss as [[[|]|]]; simpl in *; try congruence;
      destruct Hclosed as [-> | ->]; try (eexists; reflexivity);
      destruct (login_button wd); eexists; reflexivity. }
  destruct Hno as [shown Hno].
  unfold edit_tab; rewrite Hno.
  unfold bind; rewrite emit_all_effect; simpl.
  eexists; eexists; split; [reflexivity|]; now repeat split.
Qed.

(** X17: a run of the edit tab removes rows only when the Delete button
    and the "Yes, Delete" button both read as pressed in that same run: in
    any other run the table has exactly the names it had.  When both do
    (gate open, a project selected), the selected name is gone from the
    table afterwards. *)
Theorem edit_tab_deletes_only_confirmed (U P : string) (e : env)
        (ss : session_state) (wd : edit_widgets) (w : world) :
  (delete_button wd && confirm_delete wd = false ->
   names (db (snd (edit_tab U P e ss wd w))) = names (db w))
  /\ (forall name,
         fst (fst (check_password U P ss (username_input wd)
                                  (password_input wd) (login_button wd)))
         = true ->
         project_to_edit wd = Some name -> name <> "" -> db w <> [] ->
         delete_button wd = true -> confirm_delete wd = true ->
         ~ In name (names (db (snd (edit_tab U P e ss wd w))))).
Proof.
  destruct (edit_tab_effect U P e ss wd w)
    as (fin & ss' & w' & D & Uf & name & -> & _ & Hdb & HD & _ & _ & _ & HDt
        & Hname).
  simpl; rewrite Hdb; split.
  - intros Hnot.
    destruct D.
    + destruct (HD eq_refl) as (_ & _ & Hb & Hc).
      rewrite Hb, Hc in Hnot; discriminate.
    + destruct Uf; [apply names_edited | reflexivity].
  - intros n Hok Hsel Hne Hrows Hb Hc.
    pose proof (Hname n Hsel) as Hn; subst n.
    rewrite (HDt Hok Hsel Hne Hrows Hb Hc).
    destruct Uf; [rewrite names_edited|]; apply names_deleted.
Qed.

Lemma forms_keep_invariants_witness :
  store_ok atlas_world
  /\ Forall (fun r => ProjectRow.date_added r <= CURRENT_TIMESTAMP (calm 160))
            (db atlas_world)
  /\ store_ok (snd (edit_tab "admin" "" (calm 160) signed_in (saving "Atlas")
                             atlas_world))
  /\ map ProjectRow.status
         (db (snd (edit_tab "admin" "" (calm 160) signed_in (saving "Atlas")
                            atlas_world)))
     = ["Launch"].
Proof.
  assert (Hok : store_ok atlas_world).
  { split; vm_compute.
    - constructor; [intros [] | constructor].
    - constructor; [|constructor].
      split; [now left | discriminate]. }
  assert (Hclock : Forall (fun r => ProjectRow.date_added r
                                    <= CURRENT_TIMESTAMP (calm 160))
                          (db atlas_world)).
  { vm_compute; constructor; [discriminate | constructor]. }
  split; [exact Hok|]; split; [exact Hclock|]; split; [|reflexivity].
  exact (proj2 (forms_keep_invariants
                  "admin" "" (calm 160) signed_in
                  {| reg_project_name := ""; reg_one_liner := "";
                     reg_description := ""; reg_ai_usage := "";
                     reg_lead_name := ""; reg_whatsapp_contact := "";
                     reg_status := Idea; reg_submitted := false |}
                  (saving "Atlas") atlas_world Hok) Hclock).
Defined.

Lemma edit_tab_gate_closed_witness :
  password_correct {| password_correct := None |} <> Some true
  /\ (login_button (deleting "Atlas") = false
      \/ credentials_match "admin" "" (username_input (deleting "Atlas"))
                           (password_input (deleting "Atlas")) = false)
  /\ exists ss' w',
      edit_tab "admin" "" (calm 200) {| password_correct := None |}
               (deleting "Atlas") atlas_world
      = (Returns (Completed, ss'), w')
      /\ db w' = db atlas_world.
Proof.
  assert (Hss : password_correct {| password_correct := None |} <> Some true)
    by discriminate.
  assert (Hclosed : login_button (deleting "Atlas") = false
                    \/ credentials_match
                         "admin" "" (username_input (deleting "Atlas"))
                         (password_input (deleting "Atlas")) = false)
    by (now left).
  split; [exact Hss|]; split; [exact Hclosed|].
  destruct (edit_tab_gate_closed "admin" "" (calm 200) _ (deleting "Atlas")
                                 atlas_world Hss Hclosed)
    as (ss' & w' & Hres & Hdb & _).
  exists ss', w'; split; assumption.
Defined.

Lemma edit_tab_deletes_only_confirmed_witness :
  delete_button (saving "Atlas") && confirm_delete (saving "Atlas") = false
  /\ names (db (snd (edit_tab "admin" "" (calm 200) signed_in
                              (saving "Atlas") atlas_world)))
     = names (db atlas_world)
  /\ ~ In "Atlas"
       (names (db (snd (edit_tab "admin" "" (calm 200) signed_in
                                 (deleting "Atlas") atlas_world)))).
Proof.
  split; [reflexivity|]; split.
  - apply (proj1 (edit_tab_deletes_only_confirmed
                    "admin" "" (calm 200) signed_in (saving "Atlas")
                    atlas_world)).
    reflexivity.
  - apply (proj2 (edit_tab_deletes_only_confirmed
                    "admin" "" (calm 200) signed_in (deleting "Atlas")
                    atlas_world) "Atlas");
      try reflexivity; discriminate.
Defined.

Lemma find_first (f : ProjectRow.t -> bool) (l : list ProjectRow.t) :
  find f l = hd_error (filter f l).
Proof.
  induction l as [|x l IH]; simpl; [reflexivity|].
  now destruct (f x).
Qed.

(** X18: the edit tab cannot show the form of a project whose stored
    status is not one of the three stages: with the gate open, that
    project selected and the Delete button not pressed, the run stops with
    a ValueError where the select box looks up the stored status, and
    nothing is changed; the project cannot be edited through the form. *)
Theorem edit_tab_unknown_status (U P : string) (e : env) (wd : edit_widgets)
        (w : world) (r : ProjectRow.t) :
  NoDup (names (db w)) ->
  In r (db w) ->
  ProjectRow.project_name r <> "" ->
  valid_statusb (ProjectRow.status r) = false ->
  project_to_edit wd = Some (ProjectRow.project_name r) ->
  delete_button wd = false ->
  edit_tab U P e signed_in wd w = (Returns (Crashed "ValueError", signed_in), w).
Proof.
  intros Hnd Hin Hne Hbad Hsel Hdel.
  assert (Hfind : find (has_name (ProjectRow.project_name r)) (get_all_projects w)
                  = Some r).
  { rewrite find_first.
    replace (filter (has_name (ProjectRow.project_name r)) (get_all_projects w))
      with [r]; [reflexivity|].
    symmetry; apply Permutation_length_1_inv.
    rewrite (filter_perm _ _ _ (get_all_projects_listing w)).
    now rewrite filter_unique. }
  assert (Hfilled : filled (ProjectRow.project_name r) = true).
  { unfold filled; apply negb_true_iff.
    now apply String.eqb_neq. }
  unfold edit_tab, check_password.
  cbn [password_correct signed_in emit_all negb].
  unfold bind at 1; unfold ret at 1; cbv beta iota zeta.
  rewrite Hsel, Hfilled, Hfind.
  destruct (get_all_projects w) as [|r0 rows] eqn:Hlist;
    [discriminate Hfind|].
  cbn [negb]; unfold delete_dialog, bind, ret; now rewrite Hdel, Hbad.
Qed.

Lemma edit_tab_unknown_status_witness :
  NoDup (names (db stray_world))
  /\ In (new_row (calm 100) 1 (demo "Atlas" "Done")) (db stray_world)
  /\ edit_tab "admin" "" (calm 200) signed_in (saving "Atlas") stray_world
     = (Returns (Crashed "ValueError", signed_in), stray_world).
Proof.
  assert (Hnd : NoDup (names (db stray_world))).
  { vm_compute; constructor; [intros [] | constructor]. }
  assert (Hin : In (new_row (calm 100) 1 (demo "Atlas" "Done"))
                   (db stray_world)) by (now left).
  split; [exact Hnd|]; split; [exact Hin|].
  apply (edit_tab_unknown_status
           "admin" "" (calm 200) (saving "Atlas") stray_world
           (new_row (calm 100) 1 (demo "Atlas" "Done")) Hnd Hin);
    try reflexivity; discriminate.
Defined.

(** ** When the sheet cannot be read *)

(** X19: when the service is there and reading the sheet raises,
    [find_row_in_sheets] prints the error and answers as if the row were
    not there.  So [update_project] updates the table and reports that the
    project was not found in Google Sheets, [delete_project] deletes the
    table row and reports only that, and in both cases the sheet keeps its
    rows, the project's row included. *)
Theorem sheet_read_failure (e : env) (p : project_data) (w : world) (x : exn) :
  service_error e = None ->
  get_error e = Some x ->
  let seen := logged ("Error finding row: " ++ str x) in
  find_row_in_sheets e (project_name p) w = (Returns None, seen w)
  /\ update_project e p w
     = (Returns (true,
                 "Project updated in database, but Project not found in Google Sheets"),
        seen (set_db (edited e p (db w)) w))
  /\ delete_project e (project_name p) w
     = (Returns (true, "Project deleted from database"),
        seen (set_db (deleted (project_name p) (db w)) w))
  /\ sheet (snd (update_project e p w)) = sheet w
  /\ sheet (snd (delete_project e (project_name p) w)) = sheet w.
Proof.
  intros Hs Hg seen.
  assert (Hfind : forall w1,
             find_row_in_sheets e (project_name p) w1
             = (Returns None, seen w1)).
  { intros w1; unfold_app; now rewrite Hg. }
  assert (Hupd : update_project e p w
                 = (Returns
                      (true,
                       "Project updated in database, but Project not found in Google Sheets"),
                    seen (set_db (edited e p (db w)) w))).
  { unfold update_project, sync_to_sheets, init_google_sheets, sql_update,
      try_except, bind, ret; rewrite Hs; simpl.
    now rewrite Hfind. }
  assert (Hdel : delete_project e (project_name p) w
                 = (Returns (true, "Project deleted from database"),
                    seen (set_db (deleted (project_name p) (db w)) w))).
  { unfold delete_project, init_google_sheets, sql_delete, try_except, bind,
      ret; rewrite Hs; simpl.
    now rewrite Hfind. }
  split; [apply Hfind|]; split; [exact Hupd|]; split; [exact Hdel|].
  rewrite Hupd, Hdel; split; reflexivity.
Qed.

Lemma sheet_read_failure_witness :
  service_error (read_raises 200) = None
  /\ get_error (read_raises 200) = Some (HttpError "backend error")
  /\ fst (update_project (read_raises 200) (demo "Atlas" "Launch") atlas_world)
     = Returns (true,
                "Project updated in database, but Project not found in Google Sheets")
  /\ sheet (snd (delete_project (read_raises 200) "Atlas" atlas_world))
     = sheet atlas_world.
Proof.
  destruct (sheet_read_failure (read_raises 200) (demo "Atlas" "Launch")
                               atlas_world (HttpError "backend error")
                               eq_refl eq_refl)
    as (_ & Hupd & _ & _ & Hsheet).
  split; [reflexivity|]; split; [reflexivity|]; split; [|exact Hsheet].
  now rewrite Hupd.
Defined.
